(** * linky/core/youtube.py — the [YoutubeData] client

    A shallow embedding of [src/linky/core/youtube.py] and the properties of
    its accessors.

    The client is dynamically typed glue around three external services
    (the discovery client, [requests.get], the transcript library) and the
    system clock.  The embedding keeps that shape:

    - Python data is a single type [value] (the image of a JSON document:
      [None], booleans, integers, strings, lists, dicts);
    - a failing Python operation raises: pure operations return [result],
      a sum of a value and an exception;
    - methods of the class run in a state-and-exception monad [M] over the
      object's attributes and a log of what the outside world was asked;
    - the outside world is a record of oracles [Env], indexed by how many
      times each has been consulted, so that answers may change over time. *)

From Stdlib Require Import ZArith List String Ascii Bool Lia DecimalString.
Import ListNotations.

Set Warnings "-register-all".

Open Scope string_scope.
Open Scope Z_scope.

(** ** Python values and exceptions *)

Module Py.

(** JSON numbers are integers here: the client does no arithmetic on the
    payloads and reads only identifiers, texts, timestamps and counters. *)
Inductive value : Type :=
| VNone
| VBool (b : bool)
| VInt (n : Z)
| VStr (s : string)
| VList (l : list value)
| VDict (d : list (value * value)).

Inductive exn : Type :=
| KeyError
| IndexError
| TypeError
| AttributeError
| OverflowError
| LibraryError (name : string).

Inductive result (A : Type) : Type :=
| Ok (a : A)
| Raise (e : exn).

Arguments Ok {A} a.
Arguments Raise {A} e.

Definition rbind {A B} (r : result A) (k : A -> result B) : result B :=
  match r with
  | Ok a => k a
  | Raise e => Raise e
  end.

Declare Scope result_scope.
Delimit Scope result_scope with result.
Notation "x <- r ;; k" := (rbind r (fun x => k))
  (at level 61, r at next level, right associativity) : result_scope.

Fixpoint mapR {A B} (f : A -> result B) (l : list A) : result (list B) :=
  match l with
  | [] => Ok []
  | x :: l' =>
      (y <- f x ;;
       ys <- mapR f l' ;;
       Ok (y :: ys))%result
  end.

(** [bool] is a subclass of [int]: [True == 1] and [l[True]] is [l[1]]. *)
Definition as_int (v : value) : option Z :=
  match v with
  | VBool b => Some (if b then 1 else 0)
  | VInt n => Some n
  | _ => None
  end.

Definition hashable (v : value) : bool :=
  match v with
  | VList _ | VDict _ => false
  | _ => true
  end.

(** Python's [==] on hashable values, as a dict compares its keys. *)
Definition key_eqb (a b : value) : bool :=
  match as_int a, as_int b with
  | Some x, Some y => x =? y
  | _, _ =>
      match a, b with
      | VNone, VNone => true
      | VStr s, VStr t => String.eqb s t
      | _, _ => false
      end
  end.

(** Dicts keep insertion order; assigning to a present key keeps its place. *)
Definition dict := list (value * value).

Fixpoint dict_get (k : value) (d : dict) : option value :=
  match d with
  | [] => None
  | (k', v) :: d' => if key_eqb k k' then Some v else dict_get k d'
  end.

Fixpoint dict_set (k v : value) (d : dict) : dict :=
  match d with
  | [] => [(k, v)]
  | (k', v') :: d' =>
      if key_eqb k k' then (k', v) :: d' else (k', v') :: dict_set k v d'
  end.

Definition keys (d : dict) : list value := map fst d.

(** [d[k] = v] *)
Definition setitem (d : dict) (k v : value) : result dict :=
  if hashable k then Ok (dict_set k v d) else Raise TypeError.

(** [seq[i]] on a sequence of length [len], negative indices from the end. *)
Definition index {A} (l : list A) (i : Z) : result A :=
  let n := Z.of_nat (List.length l) in
  let j := if i <? 0 then i + n else i in
  if (0 <=? j) && (j <? n) then
    match nth_error l (Z.to_nat j) with
    | Some x => Ok x
    | None => Raise IndexError
    end
  else Raise IndexError.

Definition chars (s : string) : list value :=
  map (fun c => VStr (String c EmptyString)) (list_ascii_of_string s).

(** [v[k]] *)
Definition getitem (v k : value) : result value :=
  match v with
  | VDict d =>
      if hashable k then
        match dict_get k d with
        | Some x => Ok x
        | None => Raise KeyError
        end
      else Raise TypeError
  | VList l =>
      match as_int k with
      | Some i => index l i
      | None => Raise TypeError
      end
  | VStr s =>
      match as_int k with
      | Some i => index (chars s) i
      | None => Raise TypeError
      end
  | _ => Raise TypeError
  end.

(** [v[k1][k2]...[kn]], evaluated left to right. *)
Fixpoint getpath (v : value) (ks : list value) : result value :=
  match ks with
  | [] => Ok v
  | k :: ks' => (x <- getitem v k ;; getpath x ks')%result
  end.

(** [v.get(k, default)]: only dicts have the method. *)
Definition get (v : value) (k : string) (default : value) : result value :=
  match v with
  | VDict d =>
      match dict_get (VStr k) d with
      | Some x => Ok x
      | None => Ok default
      end
  | _ => Raise AttributeError
  end.

(** [for x in v]: the elements of a list, the keys of a dict, the characters
    of a string. *)
Definition iter (v : value) : result (list value) :=
  match v with
  | VList l => Ok l
  | VDict d => Ok (keys d)
  | VStr s => Ok (chars s)
  | _ => Raise TypeError
  end.

Definition str_of_int (n : Z) : string :=
  NilZero.string_of_int (Z.to_int n).

(** [str(v)], as an f-string formats a field.  The [repr] of containers is
    left to the caller. *)
Definition str (repr : value -> string) (v : value) : string :=
  match v with
  | VStr s => s
  | VInt n => str_of_int n
  | VBool true => "True"
  | VBool false => "False"
  | VNone => "None"
  | _ => repr v
  end.

(** [sep.join(l)]: every element must be a [str]. *)
Fixpoint join (sep : string) (l : list value) : result string :=
  match l with
  | [] => Ok ""
  | [VStr s] => Ok s
  | VStr s :: l' => (rest <- join sep l' ;; Ok (s ++ sep ++ rest))%result
  | _ :: _ => Raise TypeError
  end.

Fixpoint take (n : nat) (s : string) : string :=
  match n, s with
  | S n', String c s' => String c (take n' s')
  | _, _ => EmptyString
  end.

(** [s[:stop]]: a negative bound counts from the end, [s[:None]] is [s]. *)
Definition slice_to (s : string) (stop : option Z) : string :=
  match stop with
  | None => s
  | Some n =>
      let len := Z.of_nat (String.length s) in
      take (Z.to_nat (if n <? 0 then Z.max 0 (len + n) else n)) s
  end.

(** Truth value of an optional integer argument: [None] and [0] are false. *)
Definition truthy (n : option Z) : bool :=
  match n with
  | None => false
  | Some k => negb (k =? 0)
  end.

End Py.

(** ** The part of [datetime] the client uses

    [datetime.utcnow() - timedelta(days=days)] and [isoformat("T")], after
    CPython's [Lib/datetime.py] (proleptic Gregorian ordinals, day 1 is
    0001-01-01). *)

Module Datetime.
Import Py.

Record datetime : Type := mk_datetime {
  year : Z; month : Z; day : Z;
  hour : Z; minute : Z; second : Z; microsecond : Z
}.

Definition MAXORDINAL : Z := 3652059.

Definition is_leap (y : Z) : bool :=
  (y mod 4 =? 0) && (negb (y mod 100 =? 0) || (y mod 400 =? 0)).

Definition days_before_year (y : Z) : Z :=
  let p := y - 1 in p * 365 + p / 4 - p / 100 + p / 400.

Definition DAYS_IN_MONTH : list Z :=
  [-1; 31; 28; 31; 30; 31; 30; 31; 31; 30; 31; 30; 31].

Definition DAYS_BEFORE_MONTH : list Z :=
  [-1; 0; 31; 59; 90; 120; 151; 181; 212; 243; 273; 304; 334].

Definition days_before_month (y m : Z) : Z :=
  nth (Z.to_nat m) DAYS_BEFORE_MONTH 0
  + (if (2 <? m) && is_leap y then 1 else 0).

Definition ymd2ord (y m d : Z) : Z :=
  days_before_year y + days_before_month y m + d.

Definition DI400Y : Z := 146097.
Definition DI100Y : Z := 36524.
Definition DI4Y : Z := 1461.

Definition ord2ymd (ordinal : Z) : Z * Z * Z :=
  let n := ordinal - 1 in
  let n400 := n / DI400Y in
  let n := n mod DI400Y in
  let n100 := n / DI100Y in
  let n := n mod DI100Y in
  let n4 := n / DI4Y in
  let n := n mod DI4Y in
  let n1 := n / 365 in
  let n := n mod 365 in
  let y := n400 * 400 + 1 + n100 * 100 + n4 * 4 + n1 in
  if (n1 =? 4) || (n100 =? 4) then (y - 1, 12, 31)
  else
    let leapyear := (n1 =? 3) && (negb (n4 =? 24) || (n100 =? 3)) in
    let m := Z.shiftr (n + 50) 5 in
    let preceding :=
      nth (Z.to_nat m) DAYS_BEFORE_MONTH 0
      + (if (2 <? m) && leapyear then 1 else 0) in
    if n <? preceding then
      let m' := m - 1 in
      let preceding' :=
        preceding
        - (nth (Z.to_nat m') DAYS_IN_MONTH 0
           + (if (m' =? 2) && leapyear then 1 else 0)) in
      (y, m', n - preceding' + 1)
    else (y, m, n - preceding + 1).

Definition toordinal (t : datetime) : Z :=
  ymd2ord (year t) (month t) (day t).

(** [t - timedelta(days=days)]: the constructor of [timedelta] refuses more
    than 999999999 days, the subtraction refuses a date outside years
    1..9999. *)
Definition sub_days (t : datetime) (days : Z) : result datetime :=
  if 999999999 <? Z.abs days then Raise OverflowError
  else
    let o := toordinal t - days in
    if (0 <? o) && (o <=? MAXORDINAL) then
      let '(y, m, d) := ord2ymd o in
      Ok (mk_datetime y m d (hour t) (minute t) (second t) (microsecond t))
    else Raise OverflowError.

(** ["%0wd" % n] for [0 <= n]. *)
Definition pad (w : nat) (n : Z) : string :=
  let s := str_of_int n in
  string_of_list_ascii (repeat "0"%char (w - String.length s)) ++ s.

(** [t.isoformat("T")]: the fraction is printed only when it is not zero. *)
Definition isoformat (t : datetime) : string :=
  pad 4 (year t) ++ "-" ++ pad 2 (month t) ++ "-" ++ pad 2 (day t) ++ "T"
  ++ pad 2 (hour t) ++ ":" ++ pad 2 (minute t) ++ ":" ++ pad 2 (second t)
  ++ (if microsecond t =? 0 then "" else "." ++ pad 6 (microsecond t)).

End Datetime.

(** ** The outside world and the state of a client *)

Module World.
Import Py Datetime.

(** What [requests.get] returns: [response.json()] raises when the body is
    not a JSON document. *)
Record response : Type := mk_response {
  status_code : Z;
  json : result value
}.

(** Arguments of [subscriptions().list(...)]. *)
Record list_request : Type := mk_list_request {
  part : string;
  mine : bool;
  maxResults : Z
}.

(** The services the client talks to.  Each oracle receives the number of
    times it was consulted before, so an answer may differ from one call to
    the next; a service that fails raises. *)
Record Env : Type := mk_env {
  utcnow : nat -> datetime;
  requests_get : nat -> string -> result response;
  subscriptions_list : nat -> list_request -> result value;
  get_transcript : nat -> string -> result (list value);
  repr : value -> string
}.

(** The attributes of a [YoutubeData] object ([youtube_api_key],
    [subscriptions]) and the record of its exchanges with the world, oldest
    first. *)
Record State : Type := mk_state {
  youtube_api_key : string;
  subscriptions : value;
  clock_reads : nat;
  http_log : list string;
  list_log : list list_request;
  transcript_log : list string;
  stdout : list string
}.

Definition with_subscriptions (v : value) (s : State) : State :=
  mk_state (youtube_api_key s) v (clock_reads s) (http_log s) (list_log s)
    (transcript_log s) (stdout s).

Definition tick_clock (s : State) : State :=
  mk_state (youtube_api_key s) (subscriptions s) (S (clock_reads s))
    (http_log s) (list_log s) (transcript_log s) (stdout s).

Definition log_http (url : string) (s : State) : State :=
  mk_state (youtube_api_key s) (subscriptions s) (clock_reads s)
    (http_log s ++ [url]) (list_log s) (transcript_log s) (stdout s).

Definition log_list (r : list_request) (s : State) : State :=
  mk_state (youtube_api_key s) (subscriptions s) (clock_reads s) (http_log s)
    (list_log s ++ [r]) (transcript_log s) (stdout s).

Definition log_transcript (v : string) (s : State) : State :=
  mk_state (youtube_api_key s) (subscriptions s) (clock_reads s) (http_log s)
    (list_log s) (transcript_log s ++ [v]) (stdout s).

Definition log_stdout (line : string) (s : State) : State :=
  mk_state (youtube_api_key s) (subscriptions s) (clock_reads s) (http_log s)
    (list_log s) (transcript_log s) (stdout s ++ [line]).

(** Computations of the client: they read and change the state and either
    return or raise; the state survives an exception. *)
Definition M (A : Type) : Type := State -> result A * State.

Definition ret {A} (a : A) : M A := fun s => (Ok a, s).

Definition bind {A B} (m : M A) (k : A -> M B) : M B :=
  fun s =>
    match m s with
    | (Ok a, s') => k a s'
    | (Raise e, s') => (Raise e, s')
    end.

Definition lift {A} (r : result A) : M A := fun s => (r, s).

Declare Scope M_scope.
Delimit Scope M_scope with M.
Notation "x <- m ;; k" := (bind m (fun x => k))
  (at level 61, m at next level, right associativity) : M_scope.
Notation "m ;; k" := (bind m (fun _ => k))
  (at level 61, right associativity) : M_scope.

(** [for x in l: acc = body(acc, x)] *)
Fixpoint for_each {A B} (body : B -> A -> M B) (l : list A) (acc : B) : M B :=
  match l with
  | [] => ret acc
  | x :: l' => (acc' <- body acc x ;; for_each body l' acc')%M
  end.

(** The pure counterpart, for loops that only touch local data. *)
Fixpoint foldR {A B} (body : B -> A -> result B) (l : list A) (acc : B)
  : result B :=
  match l with
  | [] => Ok acc
  | x :: l' => (acc' <- body acc x ;; foldR body l' acc')%result
  end.

Section Primitives.
Variable env : Env.

Definition self_subscriptions : M value :=
  fun s => (Ok (subscriptions s), s).

Definition self_youtube_api_key : M string :=
  fun s => (Ok (youtube_api_key s), s).

(** [datetime.utcnow()] *)
Definition datetime_utcnow : M datetime :=
  fun s => (Ok (utcnow env (clock_reads s)), tick_clock s).

(** [requests.get(url)] *)
Definition requests_get_url (url : string) : M response :=
  fun s => (requests_get env (List.length (http_log s)) url, log_http url s).

(** [YouTubeTranscriptApi.get_transcript(videoId)] *)
Definition YouTubeTranscriptApi_get_transcript (videoId : string)
  : M (list value) :=
  fun s =>
    (get_transcript env (List.length (transcript_log s)) videoId,
     log_transcript videoId s).

(** [print(line)] *)
Definition print (line : string) : M unit :=
  fun s => (Ok tt, log_stdout line s).

End Primitives.

End World.

(** ** The class [YoutubeData] *)

Module YoutubeData.
Import Py Datetime World.

Section Methods.
Variable env : Env.

Local Open Scope M_scope.

(** [get_subscriptions]: one call of [subscriptions().list(...).execute()];
    the attribute is assigned only if the call returns. *)
Definition get_subscriptions : M unit :=
  fun s =>
    let request := mk_list_request "snippet, contentDetails" true 10 in
    let s' := log_list request s in
    match subscriptions_list env (List.length (list_log s)) request with
    | Ok v => (Ok tt, with_subscriptions v s')
    | Raise e => (Raise e, s')
    end.

Definition is_None (v : value) : bool :=
  match v with
  | VNone => true
  | _ => false
  end.

(** [if self.subscriptions is None: self.get_subscriptions()] *)
Definition populate : M unit :=
  subs <- self_subscriptions ;;
  if is_None subs then get_subscriptions else ret tt.

Definition get_metadata : M (value * value * value) :=
  populate ;;
  subs <- self_subscriptions ;;
  title <- lift (getpath subs
                   [VStr "items"; VInt 0; VStr "snippet"; VStr "title"]) ;;
  subs <- self_subscriptions ;;
  description <- lift (getpath subs
                   [VStr "items"; VInt 0; VStr "snippet"; VStr "description"]) ;;
  subs <- self_subscriptions ;;
  channelId <- lift (getpath subs
                   [VStr "items"; VInt 0; VStr "snippet"; VStr "resourceId";
                    VStr "channelId"]) ;;
  ret (title, description, channelId).

Definition get_items : M value :=
  populate ;;
  subs <- self_subscriptions ;;
  items <- lift (getitem subs (VStr "items")) ;;
  ret items.

(** One step of the dict comprehension of [get_channel_description]: the key,
    then the value, then the store. *)
Definition description_entry (acc : dict) (item : value) : result dict :=
  (k <- getpath item [VStr "snippet"; VStr "channelId"] ;;
   v <- getpath item [VStr "snippet"; VStr "description"] ;;
   setitem acc k v)%result.

Definition get_channel_description : M dict :=
  populate ;;
  subs <- self_subscriptions ;;
  items <- lift (getitem subs (VStr "items")) ;;
  l <- lift (iter items) ;;
  lift (foldR description_entry l []).

Definition get_channel_titles : M (list value) :=
  populate ;;
  subs <- self_subscriptions ;;
  items <- lift (getitem subs (VStr "items")) ;;
  l <- lift (iter items) ;;
  lift (mapR (fun item => getpath item [VStr "snippet"; VStr "title"]) l).

Definition get_channel_ids : M (list value) :=
  populate ;;
  subs <- self_subscriptions ;;
  items <- lift (getitem subs (VStr "items")) ;;
  l <- lift (iter items) ;;
  lift (mapR (fun item =>
                getpath item
                  [VStr "snippet"; VStr "resourceId"; VStr "channelId"]) l).

(** The URL of the dated search of [get_videos_published_in_last_days]. *)
Definition search_url (channelId formatted_date key : string) : string :=
  "https://www.googleapis.com/youtube/v3/search?part=snippet&channelId="
  ++ channelId ++ "&publishedAfter=" ++ formatted_date
  ++ "&maxResults=25&order=date&type=video&key=" ++ key.

Definition video_summary (item : value) : result value :=
  (videoId <- getpath item [VStr "id"; VStr "videoId"] ;;
   title <- getpath item [VStr "snippet"; VStr "title"] ;;
   description <- getpath item [VStr "snippet"; VStr "description"] ;;
   publishedAt <- getpath item [VStr "snippet"; VStr "publishedAt"] ;;
   Ok (VDict [(VStr "videoId", videoId); (VStr "title", title);
              (VStr "description", description);
              (VStr "publishedAt", publishedAt)]))%result.

(** [for item in response_data.get("items", []): ... append(video_summary)] *)
Definition video_summaries (response_data : value) : result (list value) :=
  (items <- get response_data "items" (VList []) ;;
   l <- iter items ;;
   mapR video_summary l)%result.

Definition failure_message (code : Z) : string :=
  "Failed to retrieve videos, status code: " ++ str_of_int code.

(** The body of the loop over [channelIds]. *)
Definition fetch_channel (days : Z) (all_videos_simple : dict)
  (channelId : value) : M dict :=
  now <- datetime_utcnow env ;;
  date_x_days_ago <- lift (sub_days now days) ;;
  let formatted_date := isoformat date_x_days_ago ++ "Z" in
  key <- self_youtube_api_key ;;
  let url := search_url (str (repr env) channelId) formatted_date key in
  response <- requests_get_url env url ;;
  if status_code response =? 200 then
    response_data <- lift (json response) ;;
    summaries <- lift (video_summaries response_data) ;;
    lift (setitem all_videos_simple channelId (VList summaries))
  else
    lift (setitem all_videos_simple channelId
            (VStr (failure_message (status_code response)))).

Definition get_videos_published_in_last_days (days : Z) : M dict :=
  channelIds <- get_channel_ids ;;
  for_each (fetch_channel days) channelIds [].

Definition get_video_transcript (videoId : string) (maxLength : option Z)
  : M string :=
  srt <- YouTubeTranscriptApi_get_transcript env videoId ;;
  texts <- lift (mapR (fun e => getitem e (VStr "text")) srt) ;;
  transcript <- lift (join " " texts) ;;
  ret (if truthy maxLength then slice_to transcript maxLength
       else transcript).

Definition descriptions_url (channelId key : string) : string :=
  "https://www.googleapis.com/youtube/v3/search?part=snippet&channelId="
  ++ channelId ++ "&maxResults=50&order=date&type=video&key=" ++ key.

Definition description_of_video (acc : dict) (item : value) : result dict :=
  (videoId <- getpath item [VStr "id"; VStr "videoId"] ;;
   description <- getpath item [VStr "snippet"; VStr "description"] ;;
   setitem acc videoId description)%result.

Definition get_all_video_descrition (channelId : string) : M dict :=
  key <- self_youtube_api_key ;;
  response <- requests_get_url env (descriptions_url channelId key) ;;
  if status_code response =? 200 then
    response_data <- lift (json response) ;;
    items <- lift (get response_data "items" (VList [])) ;;
    l <- lift (iter items) ;;
    lift (foldR description_of_video l [])
  else
    print (failure_message (status_code response)) ;;
    ret [].

Definition comments_url (video_id key : string) : string :=
  "https://www.googleapis.com/youtube/v3/commentThreads?part=snippet&videoId="
  ++ video_id ++ "&key=" ++ key ++ "&maxResults=100".

Definition get_video_comments (video_id : string) : M (list value) :=
  key <- self_youtube_api_key ;;
  response <- requests_get_url env (comments_url video_id key) ;;
  if status_code response =? 200 then
    response_data <- lift (json response) ;;
    items <- lift (get response_data "items" (VList [])) ;;
    l <- lift (iter items) ;;
    lift (mapR (fun item =>
                  getpath item [VStr "snippet"; VStr "topLevelComment";
                                VStr "snippet"; VStr "textDisplay"]) l)
  else ret [].

Definition statistics_url (video_id key : string) : string :=
  "https://www.googleapis.com/youtube/v3/videos?part=statistics&id="
  ++ video_id ++ "&key=" ++ key.

Definition get_video_likes_dislikes (video_id : string) : M dict :=
  key <- self_youtube_api_key ;;
  response <- requests_get_url env (statistics_url video_id key) ;;
  if status_code response =? 200 then
    body <- lift (json response) ;;
    data <- lift (getpath body [VStr "items"; VInt 0; VStr "statistics"]) ;;
    likes <- lift (get data "likeCount" VNone) ;;
    dislikes <- lift (get data "dislikeCount" VNone) ;;
    ret [(VStr "likes", likes); (VStr "dislikes", dislikes)]
  else
    ret [(VStr "likes", VStr "unknown"); (VStr "dislikes", VStr "unknown")].

End Methods.

End YoutubeData.

(** ** Vocabulary of the properties

    What the statements below say about payloads and results, written
    without the client's own functions. *)

Module Spec.
Import Py Datetime World.

(** [summary] is the video summary of the search result [item]: its four
    fields, read at [id.videoId] and under [snippet]. *)
Definition summary_of (item summary : value) : Prop :=
  exists videoId title description publishedAt,
    getpath item [VStr "id"; VStr "videoId"] = Ok videoId /\
    getpath item [VStr "snippet"; VStr "title"] = Ok title /\
    getpath item [VStr "snippet"; VStr "description"] = Ok description /\
    getpath item [VStr "snippet"; VStr "publishedAt"] = Ok publishedAt /\
    summary = VDict [(VStr "videoId", videoId); (VStr "title", title);
                     (VStr "description", description);
                     (VStr "publishedAt", publishedAt)].

(** The items of a response document: the elements of its ["items"] member,
    none when the member is absent. *)
Definition items_of (body : value) (items : list value) : Prop :=
  exists d, body = VDict d /\
    match dict_get (VStr "items") d with
    | Some v => iter v = Ok items
    | None => items = []
    end.

(** What a channel key holds after the answer [r] to its search: the
    summaries of the items on status 200, the failure text otherwise. *)
Definition entry_of (r : response) (entry : value) : Prop :=
  if status_code r =? 200 then
    exists body items summaries,
      json r = Ok body /\ items_of body items /\
      Forall2 summary_of items summaries /\ entry = VList summaries
  else
    entry = VStr ("Failed to retrieve videos, status code: "
                  ++ str_of_int (status_code r)).

(** A search answer the client can digest: a 200 comes with a document whose
    items all carry the four fields. *)
Definition digestible (r : response) : Prop :=
  status_code r = 200 ->
  exists body items,
    json r = Ok body /\ items_of body items /\
    Forall (fun item => exists summary, summary_of item summary) items.

(** [text] is the display text of the top-level comment of the thread
    [item]. *)
Definition display_text_of (item text : value) : Prop :=
  getpath item [VStr "snippet"; VStr "topLevelComment"; VStr "snippet";
                VStr "textDisplay"] = Ok text.

(** [kv] is the video id of the search result [item] with its description;
    the id can be a key. *)
Definition description_pair_of (item : value) (kv : value * value) : Prop :=
  getpath item [VStr "id"; VStr "videoId"] = Ok (fst kv) /\
  getpath item [VStr "snippet"; VStr "description"] = Ok (snd kv) /\
  hashable (fst kv) = true.

(** A search for the videos of a channel published after a date: newest
    first, videos only, at most 25 results. *)
Definition dated_search (channelId publishedAfter key : string) : string :=
  "https://www.googleapis.com/youtube/v3/search?part=snippet&channelId="
  ++ channelId ++ "&publishedAfter=" ++ publishedAfter
  ++ "&maxResults=25&order=date&type=video&key=" ++ key.

(** The search requests of one run of [get_videos_published_in_last_days]
    over the channel ids [ids], the clock having been read [clock] times
    before: one URL per id, in order, each bounded below by the reading of
    the clock at its turn less [days], printed by [isoformat] with a final
    [Z]. *)
Inductive requests_of (env : Env) (days : Z) (key : string)
  : nat -> list value -> list string -> Prop :=
| requests_done (clock : nat) : requests_of env days key clock [] []
| requests_next (clock : nat) (channelId : value) (ids : list value)
    (cutoff : datetime) (urls : list string) :
    sub_days (utcnow env clock) days = Ok cutoff ->
    requests_of env days key (S clock) ids urls ->
    requests_of env days key clock (channelId :: ids)
      (dated_search (str (repr env) channelId) (isoformat cutoff ++ "Z") key
       :: urls).

(** [r] answered a dated search for [channelId] that sits in the log [log]
    at some position from [first] on. *)
Definition answered_for (env : Env) (key : string) (log : list string)
  (first : nat) (channelId : value) (r : response) : Prop :=
  exists n publishedAfter,
    (first <= n)%nat /\
    nth_error log n
    = Some (dated_search (str (repr env) channelId) publishedAfter key) /\
    requests_get env n
      (dated_search (str (repr env) channelId) publishedAfter key) = Ok r.

(** [d.get(k)] *)
Definition or_None (o : option value) : value :=
  match o with
  | Some v => v
  | None => VNone
  end.

(** The dict obtained by assigning the pairs in order. *)
Definition dict_of (pairs : list (value * value)) : dict :=
  fold_left (fun acc kv => dict_set (fst kv) (snd kv) acc) pairs [].

(** [publishedAt] is not before [cutoff]: two UTC timestamps
    [YYYY-MM-DDTHH:MM:SS...] compare as their first 19 characters, that is to
    the second. *)
Definition published_since (cutoff : string) (summary : value) : bool :=
  match getitem summary (VStr "publishedAt") with
  | Ok (VStr publishedAt) =>
      negb (String.ltb (take 19 publishedAt) (take 19 cutoff))
  | _ => false
  end.

End Spec.

(** ** Concrete payloads

    Documents shaped like the ones the services send, and small worlds built
    from them; the examples and the evaluations below run the client on
    these. *)

Module Scenarios.
Import Py Datetime World.

(** A subscription resource: [snippet.channelId] is the subscriber's own
    channel, [snippet.resourceId.channelId] the channel subscribed to. *)
Definition subscription (title description subscriber channel : string)
  : value :=
  VDict [(VStr "kind", VStr "youtube#subscription");
         (VStr "snippet",
          VDict [(VStr "title", VStr title);
                 (VStr "description", VStr description);
                 (VStr "channelId", VStr subscriber);
                 (VStr "resourceId",
                  VDict [(VStr "kind", VStr "youtube#channel");
                         (VStr "channelId", VStr channel)])])].

Definition subscription_list (items : list value) : value :=
  VDict [(VStr "kind", VStr "youtube#SubscriptionListResponse");
         (VStr "items", VList items)].

(** A search result. *)
Definition search_result (videoId title description publishedAt : string)
  : value :=
  VDict [(VStr "id",
          VDict [(VStr "kind", VStr "youtube#video");
                 (VStr "videoId", VStr videoId)]);
         (VStr "snippet",
          VDict [(VStr "publishedAt", VStr publishedAt);
                 (VStr "title", VStr title);
                 (VStr "description", VStr description)])].

Definition comment_thread (textDisplay : string) : value :=
  VDict [(VStr "snippet",
          VDict [(VStr "topLevelComment",
                  VDict [(VStr "snippet",
                          VDict [(VStr "textDisplay", VStr textDisplay)])])])].

Definition items_body (items : list value) : value :=
  VDict [(VStr "items", VList items)].

Definition ok_response (body : value) : response := mk_response 200 (Ok body).

(** An error answer; its body is an error document the client never reads. *)
Definition error_response (code : Z) : response :=
  mk_response code (Ok (VDict [(VStr "error", VInt code)])).

Definition caption (text : string) : value :=
  VDict [(VStr "text", VStr text); (VStr "start", VInt 0);
         (VStr "duration", VInt 2)].

(** A world whose clock stands still and whose services always give the same
    answers. *)
Definition steady (now : datetime) (answer : response) (subs : value)
  (srt : list value) : Env :=
  mk_env (fun _ => now) (fun _ _ => Ok answer) (fun _ _ => Ok subs)
    (fun _ _ => Ok srt) (fun _ => "<object>").

(** A client just constructed ([subscriptions] is [None]) and a client whose
    cache holds [subs]. *)
Definition fresh : State := mk_state "KEY" VNone 0 [] [] [] [].

Definition cached (subs : value) : State := with_subscriptions subs fresh.

Definition jan9 : datetime := mk_datetime 2024 1 9 12 0 0 0.

Definition one_channel : value :=
  subscription_list [subscription "A" "about A" "me" "c1"].

(** Statistics without a [dislikeCount]. *)
Definition likes_only : response :=
  ok_response
    (items_body
       [VDict [(VStr "statistics", VDict [(VStr "likeCount", VStr "42")])]]).

Definition one_video : response :=
  ok_response
    (items_body
       [search_result "v1" "First" "first video" "2024-01-02T00:00:00Z"]).

Definition two_comments : response :=
  ok_response (items_body [comment_thread "first"; comment_thread "second"]).

Definition two_channels : value :=
  subscription_list [subscription "A" "about A" "me" "c1";
                     subscription "B" "about B" "me" "c2"].

(** A video published long before any recent bound. *)
Definition old_video : response :=
  ok_response
    (items_body
       [search_result "v0" "Old" "an old video" "1999-12-31T23:59:59Z"]).

(** Two subscriptions; the first search is answered with one video, every
    later one is refused. *)
Definition mixed : Env :=
  mk_env (fun _ => jan9)
    (fun n _ =>
       match n with
       | O => Ok one_video
       | S _ => Ok (error_response 403)
       end)
    (fun _ _ => Ok two_channels) (fun _ _ => Ok []) (fun _ => "<object>").

(** A video with two captions; no other service answers. *)
Definition talk : Env :=
  steady jan9 (error_response 403) VNone [caption "hello"; caption "world"].

End Scenarios.

(** ** The script at the end of the module

    The statements of the [__main__] block that follow the construction of
    the client, from [YTD.get_metadata()] to [print(video_title)]; the
    statements after them run only when these return. *)

Module Script.
Import Py Datetime World YoutubeData.

Section Main.
Variable env : Env.

Local Open Scope M_scope.

(** [print(v)]: the argument goes through [str]. *)
Definition print_value (v : value) : M unit :=
  print (str (repr env) v).

(** [video_metadata[list(video_metadata.keys())[0]][0][field]] *)
Definition first_video_field (video_metadata : dict) (field : string)
  : result value :=
  (k <- index (keys video_metadata) 0 ;;
   getpath (VDict video_metadata) [k; VInt 0; VStr field])%result.

Definition script_head : M (value * value) :=
  metadata <- get_metadata env ;;
  print "Video IDs: " ;;
  video_metadata <- get_videos_published_in_last_days env 13 ;;
  print_value (VDict video_metadata) ;;
  print ("Video Metadata:" ++ " " ++ str (repr env) (VDict video_metadata)) ;;
  videoId <- lift (first_video_field video_metadata "videoId") ;;
  print_value videoId ;;
  video_title <- lift (first_video_field video_metadata "title") ;;
  print_value video_title ;;
  ret (videoId, video_title).

End Main.

End Script.

(** ** More vocabulary and payloads *)

Module Lookup.
Import Py Datetime World Scenarios.

(** The value of the last assignment, in a sequence of assignments, to a key
    equal to [k]. *)
Fixpoint last_value (k : value) (pairs : list (value * value))
  : option value :=
  match pairs with
  | [] => None
  | (k', v) :: rest =>
      match last_value k rest with
      | Some v' => Some v'
      | None => if key_eqb k k' then Some v else None
      end
  end.


Definition the_request : list_request :=
  mk_list_request "snippet, contentDetails" true 10.

(** A subscription service that is down, and a network that is down. *)
Definition no_service : Env :=
  mk_env (fun _ => jan9) (fun _ _ => Ok one_video)
    (fun _ _ => Raise (LibraryError "HttpError")) (fun _ _ => Ok [])
    (fun _ => "<object>").

Definition offline : Env :=
  mk_env (fun _ => jan9) (fun _ _ => Raise (LibraryError "ConnectionError"))
    (fun _ _ => Ok one_channel) (fun _ _ => Ok []) (fun _ => "<object>").

(** A 200 whose document has no ["items"] member, and one whose body is not
    a JSON document. *)
Definition no_items : response :=
  ok_response (VDict [(VStr "kind", VStr "youtube#searchListResponse")]).

Definition not_json : response :=
  mk_response 200 (Raise (LibraryError "JSONDecodeError")).

(** The same video listed twice, with two descriptions. *)
Definition listed_twice : response :=
  ok_response
    (items_body
       [search_result "v1" "First" "old text" "2024-01-02T00:00:00Z";
        search_result "v2" "Second" "other" "2024-01-03T00:00:00Z";
        search_result "v1" "First" "new text" "2024-01-02T00:00:00Z"]).

(** Captions: one without a text, one whose text is a number. *)
Definition silent_caption : value :=
  VDict [(VStr "start", VInt 0); (VStr "duration", VInt 2)].

Definition numeric_caption : value :=
  VDict [(VStr "text", VInt 7); (VStr "start", VInt 0);
         (VStr "duration", VInt 2)].

End Lookup.

(** ** Facts about the Python primitives *)

Module PyFacts.
Import Py.

Lemma key_eqb_refl (k : value) : hashable k = true -> key_eqb k k = true.
Proof.
  destruct k as [|b|n|s|l|d]; simpl; intros H; try discriminate; auto.
  - destruct b; reflexivity.
  - apply Z.eqb_refl.
  - apply String.eqb_refl.
Qed.

Lemma key_eqb_sym (a b : value) : key_eqb a b = key_eqb b a.
Proof.
  destruct a, b; unfold key_eqb; cbn [as_int];
    auto using Z.eqb_sym, String.eqb_sym.
Qed.

Lemma key_eqb_trans (a b c : value) :
  key_eqb a b = true -> key_eqb b c = true -> key_eqb a c = true.
Proof.
  destruct a, b, c; unfold key_eqb; cbn [as_int]; try discriminate;
    rewrite ?Z.eqb_eq, ?String.eqb_eq; intros; subst; auto; congruence.
Qed.

(** Equal keys are looked up alike. *)
Lemma key_eqb_right (a b c : value) :
  key_eqb b c = true -> key_eqb a b = key_eqb a c.
Proof.
  intros H.
  destruct (key_eqb a b) eqn:Hab.
  - symmetry. eapply key_eqb_trans; eauto.
  - destruct (key_eqb a c) eqn:Hac; auto.
    rewrite key_eqb_sym in H.
    rewrite (key_eqb_trans a c b Hac H) in Hab. discriminate.
Qed.

Lemma key_eqb_str (s : string) (k : value) :
  key_eqb (VStr s) k = true -> k = VStr s.
Proof.
  destruct k; unfold key_eqb; cbn [as_int]; try discriminate.
  intros H. apply String.eqb_eq in H. congruence.
Qed.

Lemma dict_get_key_eqb (a b : value) (d : dict) :
  key_eqb a b = true -> dict_get a d = dict_get b d.
Proof.
  intros H. induction d as [|[k v] d IH]; simpl; auto.
  rewrite (key_eqb_sym a k), (key_eqb_sym b k), (key_eqb_right k a b H),
    IH. reflexivity.
Qed.

(** Reading after writing. *)
Lemma dict_get_set (k k' v : value) (d : dict) :
  hashable k' = true ->
  dict_get k (dict_set k' v d) =
  if key_eqb k k' then Some v else dict_get k d.
Proof.
  intros Hk'. induction d as [|[k0 v0] d IH]; simpl.
  - destruct (key_eqb k k'); reflexivity.
  - destruct (key_eqb k' k0) eqn:E; simpl.
    + rewrite (key_eqb_right k k' k0 E).
      destruct (key_eqb k k0); reflexivity.
    + rewrite IH. destruct (key_eqb k k0) eqn:E0; auto.
      destruct (key_eqb k k') eqn:E1; auto.
      rewrite key_eqb_sym in E1.
      rewrite (key_eqb_trans k' k k0 E1 E0) in E. discriminate.
Qed.

Lemma keys_dict_set (k v x : value) (d : dict) :
  In x (keys (dict_set k v d)) -> x = k \/ In x (keys d).
Proof.
  unfold keys. induction d as [|[k0 v0] d IH]; simpl.
  - intros [H|[]]; auto.
  - destruct (key_eqb k k0); simpl; intros [H|H]; auto.
    destruct (IH H); auto.
Qed.

Lemma dict_get_keys (k : value) (d : dict) :
  dict_get k d <> None -> exists k', In k' (keys d) /\ key_eqb k k' = true.
Proof.
  unfold keys. induction d as [|[k0 v0] d IH]; simpl; intros H.
  - congruence.
  - destruct (key_eqb k k0) eqn:E.
    + exists k0. auto.
    + destruct (IH H) as (k' & Hin & Hk'). exists k'. auto.
Qed.

Lemma dict_get_str_keys (s : string) (d : dict) :
  dict_get (VStr s) d <> None -> In (VStr s) (keys d).
Proof.
  intros H. destruct (dict_get_keys _ _ H) as (k' & Hin & Hk').
  apply key_eqb_str in Hk'. congruence.
Qed.

Lemma setitem_ok (d d' : dict) (k v : value) :
  setitem d k v = Ok d' -> hashable k = true /\ d' = dict_set k v d.
Proof.
  unfold setitem. destruct (hashable k); intros H; inversion H; auto.
Qed.

Lemma mapR_Forall2 {A B} (f : A -> result B) (l : list A) (l' : list B) :
  mapR f l = Ok l' -> Forall2 (fun x y => f x = Ok y) l l'.
Proof.
  revert l'. induction l as [|x l IH]; simpl; intros l' H.
  - inversion H. constructor.
  - destruct (f x) eqn:Ex; simpl in H; try discriminate.
    destruct (mapR f l) eqn:El; simpl in H; try discriminate.
    inversion H; subst. constructor; auto.
Qed.

Lemma Forall2_mapR {A B} (f : A -> result B) (l : list A) (l' : list B) :
  Forall2 (fun x y => f x = Ok y) l l' -> mapR f l = Ok l'.
Proof.
  induction 1 as [|x y l l' Hxy _ IH]; simpl; auto.
  rewrite Hxy, IH. reflexivity.
Qed.

Lemma mapR_total {A B} (f : A -> result B) (l : list A) :
  Forall (fun x => exists y, f x = Ok y) l -> exists l', mapR f l = Ok l'.
Proof.
  induction 1 as [|x l [y Hy] _ [l' IH]]; simpl.
  - eauto.
  - rewrite Hy, IH. simpl. eauto.
Qed.

Lemma take_length (n : nat) (s : string) : (String.length (take n s) <= n)%nat.
Proof.
  revert s. induction n as [|n IH]; intros [|c s]; simpl; try lia.
  specialize (IH s). lia.
Qed.

Lemma slice_to_length (s : string) (n : Z) :
  0 <= n -> Z.of_nat (String.length (slice_to s (Some n))) <= n.
Proof.
  intros Hn. unfold slice_to.
  destruct (n <? 0) eqn:E; [apply Z.ltb_lt in E; lia|].
  pose proof (take_length (Z.to_nat n) s). lia.
Qed.

(** Joining strings is [String.concat]. *)
Lemma join_strings (sep : string) (l : list string) :
  join sep (map VStr l) = Ok (String.concat sep l).
Proof.
  induction l as [|s l IH]; simpl; auto.
  destruct l as [|s' l]; simpl in *; auto.
  rewrite IH. reflexivity.
Qed.

End PyFacts.

(** ** Facts about the client *)

Module ClientFacts.
Import Py Datetime World YoutubeData Spec Scenarios PyFacts.

Ltac unfold_M :=
  unfold bind, ret, lift, self_subscriptions, self_youtube_api_key,
    requests_get_url, datetime_utcnow, YouTubeTranscriptApi_get_transcript,
    print in *.

(** A populated cache is left alone. *)
Lemma populate_cached (env : Env) (s : State) :
  is_None (subscriptions s) = false -> populate env s = (Ok tt, s).
Proof.
  intros H. unfold populate. unfold_M. rewrite H. reflexivity.
Qed.

Lemma bind_populate_cached {A} (env : Env) (s : State) (k : unit -> M A) :
  is_None (subscriptions s) = false -> bind (populate env) k s = k tt s.
Proof.
  intros H. unfold bind at 1. rewrite (populate_cached env s H). reflexivity.
Qed.

Lemma getitem_items_populated (v items : value) :
  getitem v (VStr "items") = Ok items -> is_None v = false.
Proof.
  destruct v; simpl; auto; discriminate.
Qed.

(** What [for item in response_data.get("items", [])] ranges over. *)
Lemma items_of_get (body : value) (items : list value) :
  items_of body items ->
  (v <- get body "items" (VList []) ;; iter v)%result = Ok items.
Proof.
  intros (d & -> & H). simpl.
  destruct (dict_get (VStr "items") d); simpl; congruence.
Qed.

Lemma get_items_of (body : value) (items : list value) :
  (v <- get body "items" (VList []) ;; iter v)%result = Ok items ->
  items_of body items.
Proof.
  destruct body; simpl; try discriminate.
  intros H. exists d. split; auto.
  destruct (dict_get (VStr "items") d); simpl in *; congruence.
Qed.

(** C4: when the populated subscription list is empty, [get_metadata], which
    reads the first element, raises [IndexError], while [get_channel_ids]
    returns the empty list. *)
Theorem empty_subscription_list (env : Env) (s : State) :
  getitem (subscriptions s) (VStr "items") = Ok (VList []) ->
  fst (get_metadata env s) = Raise IndexError /\
  fst (get_channel_ids env s) = Ok [].
Proof.
  intros H. pose proof (getitem_items_populated _ _ H) as Hp.
  unfold get_metadata, get_channel_ids.
  rewrite !(bind_populate_cached env s _ Hp).
  unfold_M. simpl. rewrite H. simpl. auto.
Qed.

Lemma empty_subscription_list_witness :
  fst (get_metadata (steady jan9 (error_response 403) VNone [])
         (cached (subscription_list []))) = Raise IndexError /\
  fst (get_channel_ids (steady jan9 (error_response 403) VNone [])
         (cached (subscription_list []))) = Ok [].
Proof.
  apply (empty_subscription_list (steady jan9 (error_response 403) VNone [])
           (cached (subscription_list []))).
  reflexivity.
Defined.

(** One round trip with [requests.get]. *)
Lemma bind_requests_get {A} (env : Env) (s : State) (url : string)
  (r : response) (k : response -> M A) :
  requests_get env (List.length (http_log s)) url = Ok r ->
  bind (requests_get_url env url) k s = k r (log_http url s).
Proof.
  intros H. unfold bind, requests_get_url. rewrite H. reflexivity.
Qed.

Lemma bind_api_key {A} (s : State) (k : string -> M A) :
  bind self_youtube_api_key k s = k (youtube_api_key s) s.
Proof. reflexivity. Qed.

Lemma bind_lift_ok {A B} (r : result A) (a : A) (k : A -> M B) (s : State) :
  r = Ok a -> bind (lift r) k s = k a s.
Proof. intros ->. reflexivity. Qed.

Lemma status_200 (r : response) :
  status_code r = 200 -> (status_code r =? 200) = true.
Proof. intros ->. reflexivity. Qed.

Lemma status_not_200 (r : response) :
  status_code r <> 200 -> (status_code r =? 200) = false.
Proof. apply Z.eqb_neq. Qed.

(** C6: on status 200 [get_video_likes_dislikes] returns the [likeCount] and
    the [dislikeCount] of the first item's statistics under the keys
    ["likes"] and ["dislikes"], with [None] for a count that is absent (the
    key is present all the same); on any other status it returns
    ["unknown"] under both keys. *)
Theorem likes_dislikes_by_status (env : Env) (s : State) (video_id : string)
  (r : response) :
  requests_get env (List.length (http_log s))
    (statistics_url video_id (youtube_api_key s)) = Ok r ->
  (status_code r = 200 ->
   forall body statistics,
     json r = Ok body ->
     getpath body [VStr "items"; VInt 0; VStr "statistics"]
       = Ok (VDict statistics) ->
     fst (get_video_likes_dislikes env video_id s) =
     Ok [(VStr "likes", or_None (dict_get (VStr "likeCount") statistics));
         (VStr "dislikes",
          or_None (dict_get (VStr "dislikeCount") statistics))]) /\
  (status_code r <> 200 ->
   fst (get_video_likes_dislikes env video_id s) =
   Ok [(VStr "likes", VStr "unknown"); (VStr "dislikes", VStr "unknown")]).
Proof.
  intros Hr. unfold get_video_likes_dislikes.
  rewrite bind_api_key, (bind_requests_get _ _ _ _ _ Hr). split.
  - intros H200 body statistics Hbody Hstats.
    rewrite (status_200 r H200), (bind_lift_ok _ _ _ _ Hbody),
      (bind_lift_ok _ _ _ _ Hstats).
    unfold_M. simpl.
    destruct (dict_get (VStr "likeCount") statistics);
      destruct (dict_get (VStr "dislikeCount") statistics); reflexivity.
  - intros Hn. rewrite (status_not_200 r Hn). reflexivity.
Qed.

Lemma likes_dislikes_by_status_witness :
  fst (get_video_likes_dislikes (steady jan9 likes_only VNone []) "v1" fresh)
  = Ok [(VStr "likes", VStr "42"); (VStr "dislikes", VNone)] /\
  fst (get_video_likes_dislikes (steady jan9 (error_response 404) VNone [])
         "v1" fresh)
  = Ok [(VStr "likes", VStr "unknown"); (VStr "dislikes", VStr "unknown")].
Proof.
  split.
  - apply (proj1 (likes_dislikes_by_status (steady jan9 likes_only VNone [])
                    fresh "v1" likes_only eq_refl) eq_refl
             (items_body
                [VDict [(VStr "statistics",
                         VDict [(VStr "likeCount", VStr "42")])]])
             [(VStr "likeCount", VStr "42")]); reflexivity.
  - apply (proj2 (likes_dislikes_by_status
                    (steady jan9 (error_response 404) VNone [])
                    fresh "v1" (error_response 404) eq_refl)).
    simpl. lia.
Defined.

(** C10: on status 200 [get_video_likes_dislikes] indexes the first element
    of [items] before it reads the statistics: with an empty [items] it
    raises [IndexError], and whenever it returns a mapping, [items] had a
    first element. *)
Theorem likes_dislikes_needs_an_item (env : Env) (s : State)
  (video_id : string) (r : response) (body : value) :
  requests_get env (List.length (http_log s))
    (statistics_url video_id (youtube_api_key s)) = Ok r ->
  status_code r = 200 ->
  json r = Ok body ->
  (getitem body (VStr "items") = Ok (VList []) ->
   fst (get_video_likes_dislikes env video_id s) = Raise IndexError) /\
  (forall d,
     fst (get_video_likes_dislikes env video_id s) = Ok d ->
     exists items first,
       getitem body (VStr "items") = Ok items /\
       getitem items (VInt 0) = Ok first).
Proof.
  intros Hr H200 Hbody. unfold get_video_likes_dislikes.
  rewrite bind_api_key, (bind_requests_get _ _ _ _ _ Hr), (status_200 r H200),
    (bind_lift_ok _ _ _ _ Hbody).
  unfold_M. simpl. split.
  - intros ->. reflexivity.
  - intros d. destruct (getitem body (VStr "items")) as [items|]; simpl;
      [|discriminate].
    destruct (getitem items (VInt 0)) as [first|] eqn:Hfirst; simpl;
      [|discriminate].
    intros _. eauto.
Qed.

Lemma likes_dislikes_needs_an_item_witness :
  fst (get_video_likes_dislikes
         (steady jan9 (ok_response (items_body [])) VNone []) "unknown-video"
         fresh) = Raise IndexError.
Proof.
  apply (proj1 (likes_dislikes_needs_an_item
                  (steady jan9 (ok_response (items_body [])) VNone [])
                  fresh "unknown-video" (ok_response (items_body []))
                  (items_body []) eq_refl eq_refl eq_refl)).
  reflexivity.
Defined.

Lemma bind_items {A} (body : value) (items : list value)
  (k : list value -> M A) (s : State) :
  items_of body items ->
  bind (lift (get body "items" (VList [])))
    (fun v => bind (lift (iter v)) k) s = k items s.
Proof.
  intros (d & -> & H). unfold_M. simpl.
  destruct (dict_get (VStr "items") d); simpl; rewrite H; reflexivity.
Qed.

(** Whatever the answer, [get_video_comments] makes one request and nothing
    else. *)
Lemma get_video_comments_state (env : Env) (s : State) (video_id : string) :
  snd (get_video_comments env video_id s)
  = log_http (comments_url video_id (youtube_api_key s)) s.
Proof.
  unfold get_video_comments. unfold_M.
  destruct (requests_get env _ _) as [r|]; auto.
  destruct (status_code r =? 200); auto.
  destruct (json r) as [body|]; auto.
  destruct (get body "items" (VList [])) as [v|]; auto.
  destruct (iter v); auto.
Qed.

(** C7: [get_video_comments] asks the comment-thread endpoint for at most
    100 threads of the video; on status 200 it returns the display texts of
    the top-level comments of the response items, in their order; on any
    other status it returns the empty list, raises nothing and prints
    nothing. *)
Theorem video_comments_by_status (env : Env) (s : State) (video_id : string)
  (r : response) :
  let url :=
    "https://www.googleapis.com/youtube/v3/commentThreads?part=snippet&videoId="
    ++ video_id ++ "&key=" ++ youtube_api_key s ++ "&maxResults=100" in
  requests_get env (List.length (http_log s)) url = Ok r ->
  http_log (snd (get_video_comments env video_id s))
  = (http_log s ++ [url])%list /\
  stdout (snd (get_video_comments env video_id s)) = stdout s /\
  (status_code r = 200 ->
   forall body items texts,
     json r = Ok body ->
     items_of body items ->
     Forall2 display_text_of items texts ->
     fst (get_video_comments env video_id s) = Ok texts) /\
  (status_code r <> 200 ->
   fst (get_video_comments env video_id s) = Ok []).
Proof.
  intros url Hr. rewrite get_video_comments_state.
  split; [reflexivity|]. split; [reflexivity|].
  unfold get_video_comments.
  rewrite bind_api_key, (bind_requests_get _ _ _ _ _ Hr). split.
  - intros H200 body items texts Hbody Hitems Htexts.
    rewrite (status_200 r H200), (bind_lift_ok _ _ _ _ Hbody),
      (bind_items _ _ _ _ Hitems).
    unfold lift. simpl. apply Forall2_mapR. exact Htexts.
  - intros Hn. rewrite (status_not_200 r Hn). reflexivity.
Qed.

Lemma video_comments_by_status_witness :
  fst (get_video_comments (steady jan9 two_comments VNone []) "v1" fresh)
  = Ok [VStr "first"; VStr "second"] /\
  fst (get_video_comments (steady jan9 (error_response 403) VNone []) "v1"
         fresh) = Ok [].
Proof.
  split.
  - refine (proj1 (proj2 (proj2
              (video_comments_by_status (steady jan9 two_comments VNone [])
                 fresh "v1" two_comments eq_refl)))
              eq_refl _ [comment_thread "first"; comment_thread "second"] _
              eq_refl _ _).
    + exists [(VStr "items",
               VList [comment_thread "first"; comment_thread "second"])].
      split; reflexivity.
    + repeat constructor.
  - apply (proj2 (proj2 (proj2
             (video_comments_by_status
                (steady jan9 (error_response 403) VNone []) fresh "v1"
                (error_response 403) eq_refl)))).
    simpl. lia.
Defined.

(** The loop of [get_all_video_descrition] assigns the pairs in order. *)
Lemma foldR_description_of_video (items : list value)
  (pairs : list (value * value)) (acc : dict) :
  Forall2 description_pair_of items pairs ->
  foldR description_of_video items acc
  = Ok (fold_left (fun acc kv => dict_set (fst kv) (snd kv) acc) pairs acc).
Proof.
  intros H. revert acc.
  induction H as [|item [k v] items pairs (Hk & Hv & Hh) _ IH]; intros acc.
  - reflexivity.
  - cbn [foldR fold_left fst snd] in *. unfold description_of_video at 1.
    rewrite Hk. cbn [rbind]. rewrite Hv. cbn [rbind].
    unfold setitem. rewrite Hh. cbn [rbind]. apply IH.
Qed.

Lemma get_all_video_descrition_log (env : Env) (s : State)
  (channelId : string) :
  http_log (snd (get_all_video_descrition env channelId s))
  = (http_log s ++ [descriptions_url channelId (youtube_api_key s)])%list.
Proof.
  unfold get_all_video_descrition. unfold_M.
  destruct (requests_get env _ _) as [r|]; auto.
  destruct (status_code r =? 200); auto.
  destruct (json r) as [body|]; auto.
  destruct (get body "items" (VList [])) as [v|]; auto.
  destruct (iter v); auto.
Qed.

(** C8: [get_all_video_descrition] makes one search request for the channel,
    without a date bound and asking for at most 50 results; on status 200 it
    returns the mapping from the video id of each item to its description
    and prints nothing; on any other status it prints the failure text and
    returns the empty mapping. *)
Theorem all_video_descriptions_by_status (env : Env) (s : State)
  (channelId : string) (r : response) :
  let url :=
    "https://www.googleapis.com/youtube/v3/search?part=snippet&channelId="
    ++ channelId ++ "&maxResults=50&order=date&type=video&key="
    ++ youtube_api_key s in
  requests_get env (List.length (http_log s)) url = Ok r ->
  http_log (snd (get_all_video_descrition env channelId s))
  = (http_log s ++ [url])%list /\
  (status_code r = 200 ->
   forall body items pairs,
     json r = Ok body ->
     items_of body items ->
     Forall2 description_pair_of items pairs ->
     fst (get_all_video_descrition env channelId s) = Ok (dict_of pairs) /\
     stdout (snd (get_all_video_descrition env channelId s)) = stdout s) /\
  (status_code r <> 200 ->
   fst (get_all_video_descrition env channelId s) = Ok [] /\
   stdout (snd (get_all_video_descrition env channelId s))
   = (stdout s
      ++ [("Failed to retrieve videos, status code: "
           ++ str_of_int (status_code r))%string])%list).
Proof.
  intros url Hr. split; [apply get_all_video_descrition_log|].
  unfold get_all_video_descrition.
  rewrite bind_api_key, (bind_requests_get _ _ _ _ _ Hr). split.
  - intros H200 body items pairs Hbody Hitems Hpairs.
    rewrite (status_200 r H200), (bind_lift_ok _ _ _ _ Hbody),
      (bind_items _ _ _ _ Hitems).
    unfold lift. simpl.
    rewrite (foldR_description_of_video _ _ _ Hpairs). auto.
  - intros Hn. rewrite (status_not_200 r Hn). auto.
Qed.

Lemma all_video_descriptions_by_status_witness :
  fst (get_all_video_descrition (steady jan9 one_video VNone []) "c1" fresh)
  = Ok [(VStr "v1", VStr "first video")] /\
  (fst (get_all_video_descrition (steady jan9 (error_response 500) VNone [])
          "c1" fresh) = Ok [] /\
   stdout (snd (get_all_video_descrition
                  (steady jan9 (error_response 500) VNone []) "c1" fresh))
   = ["Failed to retrieve videos, status code: 500"]).
Proof.
  split.
  - refine (proj1 (proj1 (proj2
              (all_video_descriptions_by_status
                 (steady jan9 one_video VNone []) fresh "c1" one_video
                 eq_refl))
              eq_refl _
              [search_result "v1" "First" "first video"
                 "2024-01-02T00:00:00Z"]
              [(VStr "v1", VStr "first video")] eq_refl _ _)).
    + eexists. split; reflexivity.
    + repeat constructor.
  - apply (proj2 (proj2
             (all_video_descriptions_by_status
                (steady jan9 (error_response 500) VNone []) fresh "c1"
                (error_response 500) eq_refl))).
    simpl. lia.
Defined.

(** With no limit the transcript is the text fragments joined by single
    spaces, in their order. *)
Lemma get_video_transcript_unlimited (env : Env) (s : State)
  (videoId : string) (srt : list value) (fragments : list string) :
  get_transcript env (List.length (transcript_log s)) videoId = Ok srt ->
  Forall2 (fun e t => getitem e (VStr "text") = Ok (VStr t)) srt fragments ->
  fst (get_video_transcript env videoId None s)
  = Ok (String.concat " " fragments).
Proof.
  intros Hsrt Htexts. unfold get_video_transcript. unfold_M.
  rewrite Hsrt.
  assert (Hmap : mapR (fun e => getitem e (VStr "text")) srt
                 = Ok (map VStr fragments)).
  { apply Forall2_mapR. clear Hsrt.
    induction Htexts; simpl; constructor; auto. }
  rewrite Hmap, join_strings. reflexivity.
Qed.

(** A limit other than zero is obeyed. *)
Lemma get_video_transcript_limited (env : Env) (s : State)
  (videoId : string) (n : Z) (t : string) :
  0 < n ->
  fst (get_video_transcript env videoId (Some n) s) = Ok t ->
  Z.of_nat (String.length t) <= n.
Proof.
  intros Hn. unfold get_video_transcript. unfold_M.
  destruct (get_transcript env _ _) as [srt|]; [|discriminate].
  destruct (mapR _ srt) as [texts|]; [|discriminate].
  destruct (join " " texts) as [transcript|]; [|discriminate].
  simpl. destruct (n =? 0) eqn:E; [apply Z.eqb_eq in E; lia|].
  simpl. intros H. inversion H. apply slice_to_length. lia.
Qed.

(** A limit of zero is taken for no limit at all. *)
Lemma get_video_transcript_zero (env : Env) (s : State) (videoId : string) :
  get_video_transcript env videoId (Some 0) s
  = get_video_transcript env videoId None s.
Proof. reflexivity. Qed.

(** C2: [get_video_transcript] with [maxLength=0] does not cut: on a video
    with the captions "hello" and "world" it returns the whole transcript,
    eleven characters, as it does with [maxLength=None]. *)
Theorem transcript_limit_zero_not_applied :
  fst (get_video_transcript talk "v1" (Some 0) fresh) = Ok "hello world" /\
  fst (get_video_transcript talk "v1" None fresh) = Ok "hello world" /\
  ~ (Z.of_nat (String.length "hello world") <= 0).
Proof.
  split; [reflexivity|]. split; [reflexivity|]. simpl. lia.
Qed.

(** C3: [get_channel_description] keys its mapping by [snippet.channelId],
    [get_channel_ids] lists [snippet.resourceId.channelId]: on one snapshot
    of two subscriptions the ids are c1 and c2 while the descriptions sit
    under the single key "me", and neither id is a key. *)
Theorem channel_description_keys_are_not_channel_ids (env : Env) :
  fst (get_channel_ids env (cached two_channels)) = Ok [VStr "c1"; VStr "c2"]
  /\
  fst (get_channel_titles env (cached two_channels)) = Ok [VStr "A"; VStr "B"]
  /\
  fst (get_channel_description env (cached two_channels))
  = Ok [(VStr "me", VStr "about B")] /\
  dict_get (VStr "c1") [(VStr "me", VStr "about B")] = None /\
  dict_get (VStr "c2") [(VStr "me", VStr "about B")] = None.
Proof.
  repeat split; reflexivity.
Qed.

(** *** The loop of [get_videos_published_in_last_days] *)

Lemma video_summary_spec (item summary : value) :
  video_summary item = Ok summary <-> summary_of item summary.
Proof.
  unfold video_summary, summary_of. split.
  - destruct (getpath item [VStr "id"; VStr "videoId"]) as [videoId|];
      [|discriminate].
    destruct (getpath item [VStr "snippet"; VStr "title"]) as [title|];
      [|discriminate].
    destruct (getpath item [VStr "snippet"; VStr "description"])
      as [description|]; [|discriminate].
    destruct (getpath item [VStr "snippet"; VStr "publishedAt"])
      as [publishedAt|]; [|discriminate].
    cbn [rbind]. intros H. inversion H.
    exists videoId, title, description, publishedAt. auto.
  - intros (videoId & title & description & publishedAt
            & -> & -> & -> & -> & ->).
    reflexivity.
Qed.

Lemma video_summaries_spec (body : value) (summaries : list value) :
  video_summaries body = Ok summaries ->
  exists items, items_of body items /\ Forall2 summary_of items summaries.
Proof.
  unfold video_summaries. intros H.
  destruct (v <- get body "items" (VList []) ;; iter v)%result
    as [items|] eqn:E.
  - exists items. split; [apply get_items_of; exact E|].
    destruct (get body "items" (VList [])) as [v|]; [|discriminate].
    cbn [rbind] in *. rewrite E in H. cbn [rbind] in H.
    apply mapR_Forall2 in H.
    eapply Forall2_impl; [|exact H].
    intros item summary. apply video_summary_spec.
  - destruct (get body "items" (VList [])) as [v|]; [|discriminate].
    cbn [rbind] in *. rewrite E in H. discriminate.
Qed.

Lemma video_summaries_total (body : value) (items : list value) :
  items_of body items ->
  Forall (fun item => exists summary, summary_of item summary) items ->
  exists summaries, video_summaries body = Ok summaries.
Proof.
  intros Hitems Hall. unfold video_summaries.
  apply items_of_get in Hitems.
  destruct (get body "items" (VList [])) as [v|]; [|discriminate].
  cbn [rbind] in *. rewrite Hitems. cbn [rbind].
  apply mapR_total. eapply Forall_impl; [|exact Hall].
  intros item [summary H]. exists summary. apply video_summary_spec. exact H.
Qed.

Section RecentVideos.
Variable env : Env.
Variable days : Z.

(** One turn of the loop that ends well: the clock was read, the date was in
    range, one request went out, and its answer decided the entry. *)
Lemma fetch_channel_ok (acc acc' : dict) (c : value) (s s' : State) :
  fetch_channel env days acc c s = (Ok acc', s') ->
  exists cutoff r entry,
    sub_days (utcnow env (clock_reads s)) days = Ok cutoff /\
    requests_get env (List.length (http_log s))
      (search_url (str (repr env) c) (isoformat cutoff ++ "Z")
         (youtube_api_key s)) = Ok r /\
    entry_of r entry /\
    hashable c = true /\
    acc' = dict_set c entry acc /\
    s' = log_http
           (search_url (str (repr env) c) (isoformat cutoff ++ "Z")
              (youtube_api_key s)) (tick_clock s).
Proof.
  unfold fetch_channel. unfold_M. cbn [clock_reads tick_clock http_log
    youtube_api_key].
  destruct (sub_days (utcnow env (clock_reads s)) days) as [cutoff|] eqn:Ec;
    [|discriminate].
  destruct (requests_get env _ _) as [r|] eqn:Er; [|discriminate].
  intros H. exists cutoff, r. unfold entry_of.
  destruct (status_code r =? 200) eqn:E200.
  - destruct (json r) as [body|] eqn:Eb; [|discriminate].
    destruct (video_summaries body) as [summaries|] eqn:Es; [|discriminate].
    inversion H as [[H1 H2]]. apply setitem_ok in H1 as [Hh ->].
    exists (VList summaries).
    destruct (video_summaries_spec _ _ Es) as (items & Hitems & Hsum).
    repeat split; auto. exists body, items, summaries. auto.
  - inversion H as [[H1 H2]]. apply setitem_ok in H1 as [Hh ->].
    exists (VStr (failure_message (status_code r))). repeat split; auto.
Qed.

(** One turn of the loop ends well when the date is in range, the request is
    answered, the answer is digestible and the id can be a key. *)
Lemma fetch_channel_total (acc : dict) (c : value) (s : State)
  (cutoff : datetime) (r : response) :
  sub_days (utcnow env (clock_reads s)) days = Ok cutoff ->
  requests_get env (List.length (http_log s))
    (search_url (str (repr env) c) (isoformat cutoff ++ "Z")
       (youtube_api_key s)) = Ok r ->
  digestible r ->
  hashable c = true ->
  exists acc' s', fetch_channel env days acc c s = (Ok acc', s').
Proof.
  intros Hc Hr Hd Hh. unfold fetch_channel. unfold_M.
  cbn [clock_reads tick_clock http_log youtube_api_key].
  rewrite Hc, Hr. unfold setitem. rewrite Hh.
  destruct (status_code r =? 200) eqn:E200; eauto.
  apply Z.eqb_eq in E200.
  destruct (Hd E200) as (body & items & Hb & Hitems & Hall).
  rewrite Hb.
  destruct (video_summaries_total _ _ Hitems Hall) as [summaries ->].
  eauto.
Qed.


Lemma nth_error_logged {A} (l l' : list A) (x : A) :
  nth_error ((l ++ [x]) ++ l') (List.length l) = Some x.
Proof.
  rewrite <- app_assoc, nth_error_app2 by lia.
  rewrite Nat.sub_diag. reflexivity.
Qed.

Lemma existsb_none {A} (f : A -> bool) (l : list A) :
  existsb f l = false -> forall x, In x l -> f x = false.
Proof.
  intros H x Hx. destruct (f x) eqn:E; auto.
  assert (existsb f l = true) by (apply existsb_exists; eauto).
  congruence.
Qed.

(** The loop, when it ends well: the requests it made, the keys it wrote and
    what each key holds. *)
Lemma fetch_loop_ok (ids : list value) :
  forall (acc : dict) (s : State) (d : dict) (s' : State),
    for_each (fetch_channel env days) ids acc s = (Ok d, s') ->
    youtube_api_key s' = youtube_api_key s /\
    (exists urls,
       http_log s' = (http_log s ++ urls)%list /\
       requests_of env days (youtube_api_key s) (clock_reads s) ids urls) /\
    (forall k, In k (keys d) -> In k (keys acc) \/ In k ids) /\
    (forall k, (forall c, In c ids -> key_eqb k c = false) ->
               dict_get k d = dict_get k acc) /\
    (forall c, In c ids ->
       exists c' r entry,
         In c' ids /\ key_eqb c c' = true /\
         answered_for env (youtube_api_key s) (http_log s')
           (List.length (http_log s)) c' r /\
         dict_get c d = Some entry /\ entry_of r entry).
Proof.
  induction ids as [|c ids IH]; intros acc s d s' Hrun.
  - inversion Hrun; subst. repeat split; auto.
    + exists []. rewrite app_nil_r. split; [reflexivity|constructor].
    + intros c [].
  - cbn [for_each] in Hrun. unfold bind in Hrun.
    destruct (fetch_channel env days acc c s) as [[acc1|e] s1] eqn:E;
      [|discriminate].
    apply fetch_channel_ok in E
      as (cutoff & r & entry & Hc & Hr & He & Hh & -> & ->).
    apply IH in Hrun
      as (Hkey & (urls & Hlog & Hreq) & Hkeys & Hsame & Hentries).
    cbn [youtube_api_key log_http tick_clock clock_reads http_log] in *.
    split; [exact Hkey|]. split; [|split; [|split]].
    + exists (search_url (str (repr env) c) (isoformat cutoff ++ "Z")
                (youtube_api_key s) :: urls).
      split.
      * rewrite Hlog, <- app_assoc. reflexivity.
      * apply requests_next; assumption.
    + intros k Hk. destruct (Hkeys k Hk) as [Hk'|Hk'].
      * destruct (keys_dict_set _ _ _ _ Hk') as [->|]; simpl; auto.
      * simpl; auto.
    + intros k Hk. rewrite Hsame by (intros c' Hc'; apply Hk; simpl; auto).
      rewrite (dict_get_set _ _ _ _ Hh), (Hk c) by (simpl; auto).
      reflexivity.
    + assert (Hlater : forall x, In x ids ->
                exists c' r0 entry0,
                  In c' (c :: ids) /\ key_eqb x c' = true /\
                  answered_for env (youtube_api_key s) (http_log s')
                    (List.length (http_log s)) c' r0 /\
                  dict_get x d = Some entry0 /\ entry_of r0 entry0).
      { intros x Hx.
        destruct (Hentries x Hx)
          as (c' & r0 & entry0 & Hin & Heq & Hans & Hget & Hent).
        exists c', r0, entry0. repeat split; simpl; auto.
        destruct Hans as (n & date & Hn & Hnth & Hreq0).
        exists n, date. rewrite length_app in Hn. simpl in Hn.
        repeat split; auto. lia. }
      intros x [<-|Hx]; [|auto].
      destruct (existsb (key_eqb c) ids) eqn:Ex.
      * apply existsb_exists in Ex as (x & Hx & Heq).
        destruct (Hlater x Hx)
          as (c' & r0 & entry0 & Hin & Heq' & Hans & Hget & Hent).
        exists c', r0, entry0. repeat split; auto.
        -- eapply key_eqb_trans; eauto.
        -- rewrite (dict_get_key_eqb _ _ _ Heq). exact Hget.
      * exists c, r, entry. repeat split; simpl; auto.
        -- apply key_eqb_refl; exact Hh.
        -- exists (List.length (http_log s)), (isoformat cutoff ++ "Z").
           repeat split; auto.
           rewrite Hlog. apply nth_error_logged.
        -- rewrite Hsame by (apply existsb_none; exact Ex).
           rewrite (dict_get_set _ _ _ _ Hh), (key_eqb_refl _ Hh).
           reflexivity.
Qed.

(** The loop ends well when every date is in range, every request is
    answered digestibly and every id can be a key. *)
Lemma fetch_loop_total (ids : list value) :
  (forall n, exists cutoff, sub_days (utcnow env n) days = Ok cutoff) ->
  (forall n url, exists r, requests_get env n url = Ok r /\ digestible r) ->
  Forall (fun c => hashable c = true) ids ->
  forall (acc : dict) (s : State),
    exists d s', for_each (fetch_channel env days) ids acc s = (Ok d, s').
Proof.
  intros Hclock Hhttp Hall.
  induction Hall as [|c ids Hh _ IH]; intros acc s.
  - exists acc, s. reflexivity.
  - cbn [for_each]. unfold bind.
    destruct (Hclock (clock_reads s)) as [cutoff Hc].
    destruct (Hhttp (List.length (http_log s))
                (search_url (str (repr env) c) (isoformat cutoff ++ "Z")
                   (youtube_api_key s))) as (r & Hr & Hd).
    destruct (fetch_channel_total acc c s cutoff r Hc Hr Hd Hh)
      as (acc1 & s1 & ->).
    apply IH.
Qed.


End RecentVideos.

(** *** The cache *)

Ltac destruct_matches :=
  repeat match goal with
         | |- context [match ?x with _ => _ end] => destruct x
         end.

(** Populating the cache asks the subscription service and nothing else. *)
Lemma populate_world (env : Env) (s : State) :
  youtube_api_key (snd (populate env s)) = youtube_api_key s /\
  http_log (snd (populate env s)) = http_log s /\
  clock_reads (snd (populate env s)) = clock_reads s.
Proof.
  unfold populate, get_subscriptions. unfold_M.
  destruct (is_None (subscriptions s)); auto.
  destruct (subscriptions_list env _ _); auto.
Qed.

Lemma get_channel_ids_world (env : Env) (s : State) :
  youtube_api_key (snd (get_channel_ids env s)) = youtube_api_key s /\
  http_log (snd (get_channel_ids env s)) = http_log s /\
  clock_reads (snd (get_channel_ids env s)) = clock_reads s.
Proof.
  pose proof (populate_world env s) as H.
  unfold get_channel_ids. unfold_M.
  destruct (populate env s) as [[[]|e] s1]; simpl in *; auto.
  destruct_matches; auto.
Qed.


(** *** [get_videos_published_in_last_days] as a whole *)

Lemma Forall2_In_right {A B} (R : A -> B -> Prop) (l : list A) (l' : list B)
  (y : B) :
  Forall2 R l l' -> In y l' -> exists x, In x l /\ R x y.
Proof.
  induction 1 as [|x y' l l' Hxy _ IH]; simpl; intros Hin; [contradiction|].
  destruct Hin as [<-|Hin].
  - exists x. auto.
  - destruct (IH Hin) as (x' & Hx' & HR). exists x'. auto.
Qed.

Lemma requests_of_length (env : Env) (days : Z) (key : string) (clock : nat)
  (ids : list value) (urls : list string) :
  requests_of env days key clock ids urls ->
  List.length urls = List.length ids.
Proof.
  induction 1; simpl; congruence.
Qed.

Lemma Forall_hashable_strings (cs : list string) :
  Forall (fun c => hashable c = true) (map VStr cs).
Proof.
  induction cs; simpl; constructor; auto.
Qed.

(** The two scenarios of one subscription to c1: a 200 with one item, and a
    403. *)
Example one_channel_one_video :
  fst (get_videos_published_in_last_days
         (steady jan9 one_video one_channel []) 7 fresh)
  = Ok [(VStr "c1",
         VList [VDict [(VStr "videoId", VStr "v1"); (VStr "title", VStr "First");
                       (VStr "description", VStr "first video");
                       (VStr "publishedAt", VStr "2024-01-02T00:00:00Z")]])]
  /\
  http_log (snd (get_videos_published_in_last_days
                   (steady jan9 one_video one_channel []) 7 fresh))
  = ["https://www.googleapis.com/youtube/v3/search?part=snippet&channelId=c1&publishedAfter=2024-01-02T12:00:00Z&maxResults=25&order=date&type=video&key=KEY"].
Proof. split; reflexivity. Qed.

Example one_channel_forbidden :
  fst (get_videos_published_in_last_days
         (steady jan9 (error_response 403) one_channel []) 7 fresh)
  = Ok [(VStr "c1", VStr "Failed to retrieve videos, status code: 403")].
Proof. reflexivity. Qed.

(** C1: when every search is answered, [get_videos_published_in_last_days]
    returns a mapping that holds, under each subscribed channel id, what the
    answer to a search for that channel decides: on status 200 the list of
    the summaries (videoId, title, description, publishedAt) of the response
    items, on any other status the text "Failed to retrieve videos, status
    code: " followed by the code.  A list and a text may sit side by side in
    one mapping. *)
Theorem recent_videos_entries (env : Env) (days : Z) (s s1 : State)
  (cs : list string) :
  get_channel_ids env s = (Ok (map VStr cs), s1) ->
  (forall n, exists cutoff, sub_days (utcnow env n) days = Ok cutoff) ->
  (forall n url, exists r, requests_get env n url = Ok r /\ digestible r) ->
  exists d s',
    get_videos_published_in_last_days env days s = (Ok d, s') /\
    forall c, In c cs ->
      exists r,
        answered_for env (youtube_api_key s) (http_log s')
          (List.length (http_log s)) (VStr c) r /\
        (status_code r = 200 ->
         exists body items summaries,
           json r = Ok body /\ items_of body items /\
           Forall2 summary_of items summaries /\
           dict_get (VStr c) d = Some (VList summaries)) /\
        (status_code r <> 200 ->
         dict_get (VStr c) d
         = Some (VStr ("Failed to retrieve videos, status code: "
                       ++ str_of_int (status_code r)))).
Proof.
  intros Hids Hclock Hhttp.
  pose proof (get_channel_ids_world env s) as (Hk & Hl & _).
  unfold get_videos_published_in_last_days, bind.
  rewrite Hids in *. simpl in Hk, Hl.
  destruct (fetch_loop_total env days (map VStr cs) Hclock Hhttp
              (Forall_hashable_strings cs) [] s1) as (d & s' & Hrun).
  exists d, s'. split; [exact Hrun|].
  apply fetch_loop_ok in Hrun as (_ & _ & _ & _ & Hentries).
  intros c Hc.
  destruct (Hentries (VStr c) (in_map VStr cs c Hc))
    as (c' & r & entry & _ & Heq & Hans & Hget & Hent).
  apply key_eqb_str in Heq. subst c'.
  exists r. rewrite Hk, Hl in Hans. split; [exact Hans|].
  unfold entry_of in Hent.
  destruct (status_code r =? 200) eqn:E; split; intros H.
  - destruct Hent as (body & items & summaries & Hb & Hi & Hs & ->).
    exists body, items, summaries. auto.
  - apply Z.eqb_eq in E. contradiction.
  - rewrite H in E. discriminate.
  - rewrite Hget, Hent. reflexivity.
Qed.

Lemma mixed_is_digestible (n : nat) (url : string) :
  exists r, requests_get mixed n url = Ok r /\ digestible r.
Proof.
  destruct n as [|n].
  - exists one_video. split; [reflexivity|]. intros _.
    exists (items_body
              [search_result "v1" "First" "first video"
                 "2024-01-02T00:00:00Z"]),
      [search_result "v1" "First" "first video" "2024-01-02T00:00:00Z"].
    split; [reflexivity|]. split.
    + eexists. split; reflexivity.
    + repeat constructor. eexists. apply video_summary_spec. reflexivity.
  - exists (error_response 403). split; [reflexivity|].
    intros H. discriminate H.
Qed.

Lemma mixed_clock (n : nat) :
  exists cutoff, sub_days (utcnow mixed n) 7 = Ok cutoff.
Proof. eexists. reflexivity. Qed.

Lemma recent_videos_entries_witness :
  exists d s',
    get_videos_published_in_last_days mixed 7 fresh = (Ok d, s') /\
    forall c, In c ["c1"; "c2"]%list ->
      exists r,
        answered_for mixed "KEY" (http_log s') 0 (VStr c) r /\
        (status_code r = 200 ->
         exists body items summaries,
           json r = Ok body /\ items_of body items /\
           Forall2 summary_of items summaries /\
           dict_get (VStr c) d = Some (VList summaries)) /\
        (status_code r <> 200 ->
         dict_get (VStr c) d
         = Some (VStr ("Failed to retrieve videos, status code: "
                       ++ str_of_int (status_code r)))).
Proof.
  exact (recent_videos_entries mixed 7 fresh
           (snd (get_channel_ids mixed fresh)) ["c1"; "c2"]%list
           eq_refl mixed_clock mixed_is_digestible).
Defined.

Example mixed_result :
  fst (get_videos_published_in_last_days mixed 7 fresh)
  = Ok [(VStr "c1",
         VList [VDict [(VStr "videoId", VStr "v1"); (VStr "title", VStr "First");
                       (VStr "description", VStr "first video");
                       (VStr "publishedAt", VStr "2024-01-02T00:00:00Z")]]);
        (VStr "c2", VStr "Failed to retrieve videos, status code: 403")].
Proof. reflexivity. Qed.

Lemma entry_of_shape (r : response) (entry : value) :
  entry_of r entry ->
  (exists summaries, entry = VList summaries) \/
  (exists text, entry = VStr text).
Proof.
  unfold entry_of. destruct (status_code r =? 200).
  - intros (_ & _ & summaries & _ & _ & _ & ->). left. eauto.
  - intros ->. right. eauto.
Qed.

(** C9: the keys of the mapping returned by
    [get_videos_published_in_last_days] are the subscribed channel ids:
    every id of the list has an entry in the mapping, a list of summaries or
    a failure text; every key is an id of the list; and an id that is a
    string is itself among the keys. *)
Theorem recent_videos_keys (env : Env) (days : Z) (s s' : State) (d : dict) :
  get_videos_published_in_last_days env days s = (Ok d, s') ->
  exists ids,
    fst (get_channel_ids env s) = Ok ids /\
    (forall c, In c ids ->
       exists entry,
         dict_get c d = Some entry /\
         ((exists summaries, entry = VList summaries) \/
          (exists text, entry = VStr text))) /\
    (forall k, In k (keys d) -> In k ids) /\
    (forall c, In (VStr c) ids -> In (VStr c) (keys d)).
Proof.
  unfold get_videos_published_in_last_days, bind.
  destruct (get_channel_ids env s) as [[ids|e] s1]; [|discriminate].
  intros Hrun. exists ids. split; [reflexivity|].
  apply fetch_loop_ok in Hrun as (_ & _ & Hkeys & _ & Hentries).
  assert (Hin : forall c, In c ids ->
                  exists entry,
                    dict_get c d = Some entry /\
                    ((exists summaries, entry = VList summaries) \/
                     (exists text, entry = VStr text))).
  { intros c Hc.
    destruct (Hentries c Hc) as (_ & r & entry & _ & _ & _ & Hget & Hent).
    exists entry. split; [exact Hget|]. eapply entry_of_shape; eauto. }
  repeat split; auto.
  - intros k Hk. destruct (Hkeys k Hk) as [[]|]; assumption.
  - intros c Hc. apply dict_get_str_keys.
    destruct (Hin _ Hc) as (entry & -> & _). discriminate.
Qed.

Lemma recent_videos_keys_witness :
  exists ids,
    fst (get_channel_ids mixed fresh) = Ok ids /\
    (forall c, In c ids ->
       exists entry,
         dict_get c
           [(VStr "c1",
             VList [VDict [(VStr "videoId", VStr "v1");
                           (VStr "title", VStr "First");
                           (VStr "description", VStr "first video");
                           (VStr "publishedAt",
                            VStr "2024-01-02T00:00:00Z")]]);
            (VStr "c2", VStr "Failed to retrieve videos, status code: 403")]
         = Some entry /\
         ((exists summaries, entry = VList summaries) \/
          (exists text, entry = VStr text))) /\
    (forall k, In k [VStr "c1"; VStr "c2"] -> In k ids) /\
    (forall c, In (VStr c) ids -> In (VStr c) [VStr "c1"; VStr "c2"]).
Proof.
  exact (recent_videos_keys mixed 7 fresh
           (snd (get_videos_published_in_last_days mixed 7 fresh)) _
           eq_refl).
Defined.

(** C5 as it holds: for [days >= 0], when the date [days] before each reading
    of the clock exists and every search is answered,
    [get_videos_published_in_last_days] makes exactly one search request per
    entry of the list of channel ids, in order, each for videos only, newest
    first, at most 25 results, with [publishedAfter] the reading of the clock
    at that turn less [days], in [isoformat] with a final [Z]; the
    [publishedAt] of every summary it returns is the [snippet.publishedAt]
    of an item of an answer to one of these searches, as the service sent
    it. *)
Theorem recent_videos_requests (env : Env) (days : Z) (s s1 : State)
  (ids : list value) :
  0 <= days ->
  get_channel_ids env s = (Ok ids, s1) ->
  Forall (fun c => hashable c = true) ids ->
  (forall n, exists cutoff, sub_days (utcnow env n) days = Ok cutoff) ->
  (forall n url, exists r, requests_get env n url = Ok r /\ digestible r) ->
  exists d s' urls,
    get_videos_published_in_last_days env days s = (Ok d, s') /\
    http_log s' = (http_log s ++ urls)%list /\
    List.length urls = List.length ids /\
    requests_of env days (youtube_api_key s) (clock_reads s) ids urls /\
    (forall c summaries summary,
       dict_get c d = Some (VList summaries) ->
       In summary summaries ->
       exists c' r body items item,
         In c' ids /\
         answered_for env (youtube_api_key s) (http_log s')
           (List.length (http_log s)) c' r /\
         json r = Ok body /\ items_of body items /\ In item items /\
         getitem summary (VStr "publishedAt")
         = getpath item [VStr "snippet"; VStr "publishedAt"]).
Proof.
  intros _ Hids Hhash Hclock Hhttp.
  pose proof (get_channel_ids_world env s) as (Hk & Hl & Hc).
  unfold get_videos_published_in_last_days, bind.
  rewrite Hids in *. simpl in Hk, Hl, Hc.
  destruct (fetch_loop_total env days ids Hclock Hhttp Hhash [] s1)
    as (d & s' & Hrun).
  pose proof (fetch_loop_ok env days ids [] s1 d s' Hrun)
    as (_ & (urls & Hlog & Hreq) & Hkeys & _ & Hentries).
  rewrite Hk, Hl in *. rewrite Hc in Hreq.
  exists d, s', urls. split; [exact Hrun|]. split; [exact Hlog|].
  split; [eapply requests_of_length; exact Hreq|]. split; [exact Hreq|].
  intros c summaries summary Hget Hin.
  assert (Hsome : dict_get c d <> None) by congruence.
  destruct (dict_get_keys _ _ Hsome) as (k & Hkin & Hkeq).
  destruct (Hkeys k Hkin) as [[]|Hkids].
  destruct (Hentries k Hkids)
    as (c' & r & entry & Hc' & _ & Hans & Hget' & Hent).
  rewrite (dict_get_key_eqb _ _ _ Hkeq), Hget' in Hget.
  inversion Hget; subst entry. unfold entry_of in Hent.
  destruct (status_code r =? 200); [|discriminate].
  destruct Hent as (body & items & summaries' & Hb & Hi & Hs & Heq).
  inversion Heq; subst summaries'.
  destruct (Forall2_In_right _ _ _ _ Hs Hin) as (item & Hitem & Hsum).
  exists c', r, body, items, item. repeat split; auto.
  destruct Hsum as (videoId & title & description & publishedAt
                    & _ & _ & _ & -> & ->).
  reflexivity.
Qed.

Lemma recent_videos_requests_witness :
  exists d s' urls,
    get_videos_published_in_last_days mixed 7 fresh = (Ok d, s') /\
    http_log s' = urls /\
    List.length urls = 2%nat /\
    requests_of mixed 7 "KEY" 0 [VStr "c1"; VStr "c2"] urls /\
    (forall c summaries summary,
       dict_get c d = Some (VList summaries) ->
       In summary summaries ->
       exists c' r body items item,
         In c' [VStr "c1"; VStr "c2"] /\
         answered_for mixed "KEY" (http_log s') 0 c' r /\
         json r = Ok body /\ items_of body items /\ In item items /\
         getitem summary (VStr "publishedAt")
         = getpath item [VStr "snippet"; VStr "publishedAt"]).
Proof.
  refine (recent_videos_requests mixed 7 fresh
            (snd (get_channel_ids mixed fresh)) [VStr "c1"; VStr "c2"]
            _ eq_refl _ mixed_clock mixed_is_digestible).
  - lia.
  - repeat constructor.
Defined.

(** C5 as stated fails on two counts.  A service that answers a search with
    a video older than the bound gets it returned: seven days before
    2024-01-09T12:00:00 the request carries
    [publishedAfter=2024-01-02T12:00:00Z] and the summary returned is dated
    1999-12-31T23:59:59Z.  And a number of days that reaches before year 1
    raises [OverflowError] before any request is made. *)
Lemma recent_videos_counterexample :
  (exists summary,
     get_videos_published_in_last_days
       (steady jan9 old_video one_channel []) 7 (cached one_channel)
     = (Ok [(VStr "c1", VList [summary])],
        tick_clock
          (log_http
             "https://www.googleapis.com/youtube/v3/search?part=snippet&channelId=c1&publishedAfter=2024-01-02T12:00:00Z&maxResults=25&order=date&type=video&key=KEY"
             (cached one_channel))) /\
     getitem summary (VStr "publishedAt") = Ok (VStr "1999-12-31T23:59:59Z")
     /\
     published_since "2024-01-02T12:00:00Z" summary = false) /\
  (0 <= 800000 /\
   get_videos_published_in_last_days
     (steady jan9 one_video one_channel []) 800000 (cached one_channel)
   = (Raise OverflowError, tick_clock (cached one_channel))).
Proof.
  split.
  - eexists. split; [reflexivity|]. split; reflexivity.
  - split; [lia|reflexivity].
Qed.

End ClientFacts.

(** ** Further facts: the cache, failures, duplicates, the script *)

Module MoreFacts.
Import Py Datetime World YoutubeData Spec Scenarios Script Lookup PyFacts
  ClientFacts.

(** The first access of a new client. *)
Lemma populate_fresh (env : Env) (s : State) :
  subscriptions s = VNone ->
  populate env s
  = match subscriptions_list env (List.length (list_log s)) the_request with
    | Ok v => (Ok tt, with_subscriptions v (log_list the_request s))
    | Raise e => (Raise e, log_list the_request s)
    end.
Proof.
  intros H. unfold populate, get_subscriptions. unfold_M. rewrite H.
  reflexivity.
Qed.



(** X2: when the subscription service raises on a new client, every accessor
    raises the same exception, makes no search, and leaves the cache empty,
    so that the next access asks the service again. *)
Theorem failed_fetch_is_not_cached (env : Env) (days : Z) (s : State)
  (e : exn) :
  subscriptions s = VNone ->
  subscriptions_list env (List.length (list_log s))
    (mk_list_request "snippet, contentDetails" true 10) = Raise e ->
  let s' := log_list (mk_list_request "snippet, contentDetails" true 10) s in
  get_metadata env s = (Raise e, s') /\
  get_items env s = (Raise e, s') /\
  get_channel_description env s = (Raise e, s') /\
  get_channel_titles env s = (Raise e, s') /\
  get_channel_ids env s = (Raise e, s') /\
  get_videos_published_in_last_days env days s = (Raise e, s') /\
  subscriptions s' = VNone /\ http_log s' = http_log s.
Proof.
  intros Hnone Hlist s'.
  pose proof (populate_fresh env s Hnone) as Hp.
  fold the_request in Hlist. rewrite Hlist in Hp.
  assert (Hids : get_channel_ids env s = (Raise e, s')).
  { unfold get_channel_ids, bind at 1. rewrite Hp. reflexivity. }
  repeat split; auto.
  - unfold get_metadata, bind at 1. rewrite Hp. reflexivity.
  - unfold get_items, bind at 1. rewrite Hp. reflexivity.
  - unfold get_channel_description, bind at 1. rewrite Hp. reflexivity.
  - unfold get_channel_titles, bind at 1. rewrite Hp. reflexivity.
  - unfold get_videos_published_in_last_days, bind. rewrite Hids.
    reflexivity.
Qed.

Lemma failed_fetch_is_not_cached_witness :
  get_videos_published_in_last_days no_service 7 fresh
  = (Raise (LibraryError "HttpError"),
     log_list (mk_list_request "snippet, contentDetails" true 10) fresh) /\
  get_metadata no_service fresh
  = (Raise (LibraryError "HttpError"),
     log_list (mk_list_request "snippet, contentDetails" true 10) fresh).
Proof.
  pose proof (failed_fetch_is_not_cached no_service 7 fresh
                (LibraryError "HttpError") eq_refl eq_refl)
    as (H1 & _ & _ & _ & _ & H6 & _).
  exact (conj H6 H1).
Defined.

(** X3: with an empty subscription list,
    [get_videos_published_in_last_days] returns the empty mapping for every
    number of days, also one that no date can be moved by, without reading
    the clock or making a request. *)
Theorem recent_videos_without_subscriptions (env : Env) (days : Z)
  (s : State) :
  getitem (subscriptions s) (VStr "items") = Ok (VList []) ->
  get_videos_published_in_last_days env days s = (Ok [], s).
Proof.
  intros H. pose proof (getitem_items_populated _ _ H) as Hp.
  unfold get_videos_published_in_last_days, get_channel_ids.
  unfold bind at 1 2. rewrite (populate_cached env s Hp).
  unfold_M. simpl. rewrite H. reflexivity.
Qed.

Lemma recent_videos_without_subscriptions_witness :
  get_videos_published_in_last_days
    (steady jan9 (error_response 403) VNone []) 1000000000000
    (cached (subscription_list []))
  = (Ok [], cached (subscription_list [])).
Proof.
  apply (recent_videos_without_subscriptions
           (steady jan9 (error_response 403) VNone []) 1000000000000
           (cached (subscription_list []))).
  reflexivity.
Defined.

Section RequestBound.
Variable env : Env.
Variable days : Z.

(** One turn of the loop reads the clock once and makes at most one
    request, however it ends. *)
Lemma fetch_channel_effort (acc : dict) (c : value) (s : State) :
  clock_reads (snd (fetch_channel env days acc c s)) = S (clock_reads s) /\
  exists urls,
    http_log (snd (fetch_channel env days acc c s))
    = (http_log s ++ urls)%list /\
    (List.length urls <= 1)%nat.
Proof.
  unfold fetch_channel. unfold_M.
  destruct (sub_days _ days) as [cutoff|]; simpl.
  - split.
    + destruct (requests_get env _ _) as [r|]; auto.
      destruct (status_code r =? 200); auto.
      destruct (json r) as [body|]; auto.
      destruct (video_summaries body); auto.
    + exists [search_url (str (repr env) c) (isoformat cutoff ++ "Z")
                (youtube_api_key s)].
      split; [|simpl; lia].
      destruct (requests_get env _ _) as [r|]; auto.
      destruct (status_code r =? 200); auto.
      destruct (json r) as [body|]; auto.
      destruct (video_summaries body); auto.
  - split; auto. exists []. rewrite app_nil_r. auto.
Qed.

Lemma fetch_loop_effort (ids : list value) :
  forall (acc : dict) (s : State),
    (clock_reads (snd (for_each (fetch_channel env days) ids acc s))
     <= clock_reads s + List.length ids)%nat /\
    exists urls,
      http_log (snd (for_each (fetch_channel env days) ids acc s))
      = (http_log s ++ urls)%list /\
      (List.length urls <= List.length ids)%nat.
Proof.
  induction ids as [|c ids IH]; intros acc s.
  - simpl. split; [lia|]. exists []. rewrite app_nil_r. auto.
  - cbn [for_each]. unfold bind.
    destruct (fetch_channel_effort acc c s) as (Hc & urls & Hl & Hn).
    destruct (fetch_channel env days acc c s) as [[acc1|e] s1];
      cbn [snd] in *.
    + destruct (IH acc1 s1) as (Hc' & urls' & Hl' & Hn').
      split; [simpl; lia|].
      exists (urls ++ urls')%list. rewrite Hl', Hl, app_assoc.
      split; [reflexivity|]. rewrite length_app. simpl. lia.
    + split; [simpl; lia|]. exists urls. split; [exact Hl|]. simpl. lia.
Qed.

End RequestBound.

(** X4: however a call of [get_videos_published_in_last_days] ends, it only
    appends to the record of requests, and it makes at most one request and
    one reading of the clock per channel id; when the channel ids cannot be
    had it makes none. *)
Theorem recent_videos_effort (env : Env) (days : Z) (s : State) :
  let bound :=
    match fst (get_channel_ids env s) with
    | Ok ids => List.length ids
    | Raise _ => O
    end in
  (clock_reads (snd (get_videos_published_in_last_days env days s))
   <= clock_reads s + bound)%nat /\
  exists urls,
    http_log (snd (get_videos_published_in_last_days env days s))
    = (http_log s ++ urls)%list /\
    (List.length urls <= bound)%nat.
Proof.
  pose proof (get_channel_ids_world env s) as (_ & Hl & Hc).
  unfold get_videos_published_in_last_days, bind.
  destruct (get_channel_ids env s) as [[ids|e] s1]; cbn [fst snd] in *.
  - destruct (fetch_loop_effort env days ids [] s1) as (H1 & urls & H2 & H3).
    rewrite Hl, Hc in *. split; [exact H1|]. exists urls. auto.
  - rewrite Hl, Hc. split; [lia|]. exists []. rewrite app_nil_r. auto.
Qed.

Lemma mapR_In {A B} (f : A -> result B) (l : list A) (l' : list B) (x : A) :
  mapR f l = Ok l' -> In x l -> exists y, f x = Ok y.
Proof.
  revert l'. induction l as [|a l IH]; simpl; intros l' H Hin; [contradiction|].
  destruct (f a) as [b|] eqn:Ea; simpl in H; [|discriminate].
  destruct (mapR f l) as [bs|]; simpl in H; [|discriminate].
  destruct Hin as [<-|Hin]; eauto.
Qed.

Lemma mapR_length {A B} (f : A -> result B) (l : list A) (l' : list B) :
  mapR f l = Ok l' -> List.length l' = List.length l.
Proof.
  intros H. apply mapR_Forall2 in H. symmetry.
  eapply Forall2_length; eauto.
Qed.

(** A key that equals [0] is a number, and a number has no members. *)
Lemma key_zero_has_no_member (k : value) (name : string) :
  key_eqb (VInt 0) k = true -> getitem k (VStr name) = Raise TypeError.
Proof.
  destruct k; unfold key_eqb; cbn [as_int]; try discriminate; reflexivity.
Qed.

Lemma index_head {A} (x : A) (l : list A) : index (x :: l) 0 = Ok x.
Proof.
  unfold index. change (0 <? 0) with false. cbv iota.
  change (0 <=? 0) with true.
  destruct (0 <? Z.of_nat (List.length (x :: l))) eqn:E.
  - reflexivity.
  - apply Z.ltb_ge in E. simpl List.length in E. lia.
Qed.

(** When the first element of [items] and every element of [items] can be
    read, [items] is a list with a first element. *)
Lemma items_with_head (items first : value) (l : list value)
  (f : value -> result value) :
  (forall k, key_eqb (VInt 0) k = true -> f k = Raise TypeError) ->
  getitem items (VInt 0) = Ok first ->
  (exists name, getitem first (VStr name) <> Raise TypeError) ->
  iter items = Ok l ->
  (forall x, In x l -> exists y, f x = Ok y) ->
  exists rest, items = VList (first :: rest) /\ l = first :: rest.
Proof.
  intros Hf Hfirst [name Hname] Hiter Hall.
  destruct items as [| | |str|elements|d]; simpl in *; try discriminate.
  - exfalso. destruct str as [|a str]; [discriminate|].
    change (chars (String a str))
      with (VStr (String a EmptyString) :: chars str) in Hfirst.
    rewrite index_head in Hfirst.
    inversion Hfirst; subst first. apply Hname. reflexivity.
  - inversion Hiter; subst l. destruct elements as [|x rest].
    + discriminate.
    + rewrite index_head in Hfirst. inversion Hfirst; subst. eauto.
  - exfalso. inversion Hiter; subst l.
    destruct (dict_get (VInt 0) d) eqn:E; [|discriminate].
    assert (Hsome : dict_get (VInt 0) d <> None) by congruence.
    destruct (dict_get_keys _ _ Hsome) as (k & Hk & Heq).
    destruct (Hall k Hk) as [y Hy].
    rewrite (Hf k Heq) in Hy. discriminate.
Qed.

(** X5: what [get_metadata] returns agrees with the lists: whenever
    [get_metadata], [get_channel_titles] and [get_channel_ids] all return on
    the same client, the title and the channel id of [get_metadata] are the
    first title and the first id, and the two lists have the same length. *)
Theorem metadata_is_first_of_lists (env : Env) (s : State)
  (title description channelId : value) (titles ids : list value) :
  fst (get_metadata env s) = Ok (title, description, channelId) ->
  fst (get_channel_titles env s) = Ok titles ->
  fst (get_channel_ids env s) = Ok ids ->
  (exists rest, titles = title :: rest) /\
  (exists rest, ids = channelId :: rest) /\
  List.length titles = List.length ids.
Proof.
  unfold get_metadata, get_channel_titles, get_channel_ids.
  unfold_M.
  destruct (populate env s) as [[[]|e] s1]; [|discriminate].
  cbn [getpath]. set (subs := subscriptions s1).
  destruct (getitem subs (VStr "items")) as [items|]; [|discriminate].
  cbn [rbind].
  destruct (getitem items (VInt 0)) as [first|] eqn:Hfirst; [|discriminate].
  cbn [rbind].
  destruct (getitem first (VStr "snippet")) as [snippet|] eqn:Hsnippet;
    [|discriminate].
  cbn [rbind].
  destruct (getitem snippet (VStr "title")) as [t|] eqn:Ht; [|discriminate].
  cbn [rbind fst].
  destruct (getitem snippet (VStr "description")) as [d|]; [|discriminate].
  cbn [rbind fst].
  destruct (getitem snippet (VStr "resourceId")) as [resource|] eqn:Hres;
    [|discriminate].
  cbn [rbind].
  destruct (getitem resource (VStr "channelId")) as [c|] eqn:Hc;
    [|discriminate].
  cbn [rbind fst]. intros Hm. inversion Hm; subst t d c. clear Hm.
  destruct (iter items) as [l|] eqn:Hiter; [|discriminate].
  cbn [fst]. intros Htitles Hids.
  assert (Hhead : exists rest, items = VList (first :: rest)
                               /\ l = first :: rest).
  { apply (items_with_head items first l
             (fun item => (x <- getitem item (VStr "snippet") ;;
                           x0 <- getitem x (VStr "title") ;; Ok x0)%result)).
    - intros k Hk. rewrite (key_zero_has_no_member k _ Hk). reflexivity.
    - exact Hfirst.
    - exists "snippet". rewrite Hsnippet. discriminate.
    - exact Hiter.
    - intros x Hx. exact (mapR_In _ _ _ x Htitles Hx). }
  destruct Hhead as (rest & _ & ->).
  pose proof (mapR_length _ _ _ Htitles) as Hlt.
  pose proof (mapR_length _ _ _ Hids) as Hli.
  cbn [mapR] in Htitles, Hids.
  rewrite Hsnippet in Htitles, Hids. cbn [rbind] in Htitles, Hids.
  rewrite Ht in Htitles. rewrite Hres in Hids. cbn [rbind] in Htitles, Hids.
  rewrite Hc in Hids. cbn [rbind] in Htitles, Hids.
  destruct (mapR _ rest) as [ts|] in Htitles; [|discriminate].
  destruct (mapR _ rest) as [cs|] in Hids; [|discriminate].
  cbn [rbind] in Htitles, Hids.
  inversion Htitles; inversion Hids; subst.
  repeat split; eauto. congruence.
Qed.

Lemma metadata_is_first_of_lists_witness :
  (exists rest, [VStr "A"; VStr "B"] = VStr "A" :: rest) /\
  (exists rest, [VStr "c1"; VStr "c2"] = VStr "c1" :: rest) /\
  List.length [VStr "A"; VStr "B"] = List.length [VStr "c1"; VStr "c2"].
Proof.
  exact (metadata_is_first_of_lists
           (steady jan9 one_video two_channels []) fresh
           (VStr "A") (VStr "about A") (VStr "c1")
           [VStr "A"; VStr "B"] [VStr "c1"; VStr "c2"]
           eq_refl eq_refl eq_refl).
Defined.

Lemma items_of_absent (d : dict) :
  dict_get (VStr "items") d = None -> items_of (VDict d) [].
Proof.
  intros H. exists d. rewrite H. auto.
Qed.

(** X6: a 200 answer whose document has no ["items"] member counts as an
    answer without items for the comments, the descriptions and the recent
    videos (an empty list, an empty mapping with nothing printed, an empty
    list under the channel key), whereas [get_video_likes_dislikes] raises
    [KeyError]. *)
Theorem answer_without_items (env : Env) (days : Z) (s : State) (id : string)
  (r : response) (d : dict) :
  status_code r = 200 ->
  json r = Ok (VDict d) ->
  dict_get (VStr "items") d = None ->
  (requests_get env (List.length (http_log s))
     (comments_url id (youtube_api_key s)) = Ok r ->
   fst (get_video_comments env id s) = Ok []) /\
  (requests_get env (List.length (http_log s))
     (descriptions_url id (youtube_api_key s)) = Ok r ->
   fst (get_all_video_descrition env id s) = Ok [] /\
   stdout (snd (get_all_video_descrition env id s)) = stdout s) /\
  (requests_get env (List.length (http_log s))
     (statistics_url id (youtube_api_key s)) = Ok r ->
   fst (get_video_likes_dislikes env id s) = Raise KeyError) /\
  (forall cutoff,
     get_channel_ids env s = (Ok [VStr id], s) ->
     sub_days (utcnow env (clock_reads s)) days = Ok cutoff ->
     requests_get env (List.length (http_log s))
       (search_url id (isoformat cutoff ++ "Z") (youtube_api_key s)) = Ok r ->
     fst (get_videos_published_in_last_days env days s)
     = Ok [(VStr id, VList [])]).
Proof.
  intros H200 Hbody Hnone.
  pose proof (items_of_absent d Hnone) as Hitems.
  repeat split.
  - intros Hr. unfold get_video_comments.
    rewrite bind_api_key, (bind_requests_get _ _ _ _ _ Hr),
      (status_200 r H200), (bind_lift_ok _ _ _ _ Hbody),
      (bind_items _ _ _ _ Hitems).
    reflexivity.
  - unfold get_all_video_descrition.
    rewrite bind_api_key, (bind_requests_get _ _ _ _ _ H),
      (status_200 r H200), (bind_lift_ok _ _ _ _ Hbody),
      (bind_items _ _ _ _ Hitems).
    reflexivity.
  - unfold get_all_video_descrition.
    rewrite bind_api_key, (bind_requests_get _ _ _ _ _ H),
      (status_200 r H200), (bind_lift_ok _ _ _ _ Hbody),
      (bind_items _ _ _ _ Hitems).
    reflexivity.
  - intros Hr. unfold get_video_likes_dislikes.
    rewrite bind_api_key, (bind_requests_get _ _ _ _ _ Hr),
      (status_200 r H200), (bind_lift_ok _ _ _ _ Hbody).
    unfold_M. simpl. rewrite Hnone. reflexivity.
  - intros cutoff Hids Hcut Hr.
    assert (Hturn : fetch_channel env days [] (VStr id) s
                    = (Ok [(VStr id, VList [])],
                       log_http
                         (search_url id (isoformat cutoff ++ "Z")
                            (youtube_api_key s)) (tick_clock s))).
    { unfold fetch_channel. unfold_M.
      cbn [clock_reads tick_clock http_log youtube_api_key str].
      rewrite Hcut, Hr, (status_200 r H200), Hbody.
      unfold video_summaries. cbn [get]. rewrite Hnone. reflexivity. }
    unfold get_videos_published_in_last_days, bind at 1. rewrite Hids.
    cbn [for_each]. unfold bind at 1. rewrite Hturn. reflexivity.
Qed.

Lemma answer_without_items_witness :
  fst (get_video_comments (steady jan9 no_items VNone []) "v1" fresh) = Ok []
  /\
  fst (get_video_likes_dislikes (steady jan9 no_items VNone []) "v1" fresh)
  = Raise KeyError /\
  fst (get_videos_published_in_last_days (steady jan9 no_items VNone []) 7
         (cached (subscription_list [subscription "A" "about A" "me" "v1"])))
  = Ok [(VStr "v1", VList [])].
Proof.
  pose proof (answer_without_items (steady jan9 no_items VNone []) 7 fresh
                "v1" no_items
                [(VStr "kind", VStr "youtube#searchListResponse")]
                eq_refl eq_refl eq_refl) as (H1 & _ & H3 & _).
  pose proof (answer_without_items (steady jan9 no_items VNone []) 7
                (cached
                   (subscription_list [subscription "A" "about A" "me" "v1"]))
                "v1" no_items
                [(VStr "kind", VStr "youtube#searchListResponse")]
                eq_refl eq_refl eq_refl) as (_ & _ & _ & H4).
  exact (conj (H1 eq_refl) (conj (H3 eq_refl) (H4 _ eq_refl eq_refl eq_refl))).
Defined.

(** X7: a failure of [requests.get] itself, or of [response.json()] on a 200
    answer, is not handled: the comments, the descriptions and the likes all
    raise it after their one request, and nothing is printed. *)
Theorem unhandled_failures (env : Env) (s : State) (id : string) (e : exn) :
  let failed (answer : result response) :=
    answer = Raise e \/
    exists r, answer = Ok r /\ status_code r = 200 /\ json r = Raise e in
  (failed (requests_get env (List.length (http_log s))
             (comments_url id (youtube_api_key s))) ->
   get_video_comments env id s
   = (Raise e, log_http (comments_url id (youtube_api_key s)) s)) /\
  (failed (requests_get env (List.length (http_log s))
             (descriptions_url id (youtube_api_key s))) ->
   get_all_video_descrition env id s
   = (Raise e, log_http (descriptions_url id (youtube_api_key s)) s)) /\
  (failed (requests_get env (List.length (http_log s))
             (statistics_url id (youtube_api_key s))) ->
   get_video_likes_dislikes env id s
   = (Raise e, log_http (statistics_url id (youtube_api_key s)) s)).
Proof.
  intros failed. unfold failed.
  unfold get_video_comments, get_all_video_descrition,
    get_video_likes_dislikes.
  repeat split; (intros [H|(r & H & H200 & Hjson)]; unfold_M; rewrite H;
                 [reflexivity|rewrite (status_200 r H200), Hjson; reflexivity]).
Qed.

Lemma unhandled_failures_witness :
  get_video_comments offline "v1" fresh
  = (Raise (LibraryError "ConnectionError"),
     log_http (comments_url "v1" "KEY") fresh) /\
  get_video_likes_dislikes (steady jan9 not_json VNone []) "v1" fresh
  = (Raise (LibraryError "JSONDecodeError"),
     log_http (statistics_url "v1" "KEY") fresh).
Proof.
  split.
  - apply (proj1 (unhandled_failures offline fresh "v1"
                    (LibraryError "ConnectionError"))).
    left. reflexivity.
  - apply (proj2 (proj2 (unhandled_failures (steady jan9 not_json VNone [])
                           fresh "v1" (LibraryError "JSONDecodeError")))).
    right. exists not_json. repeat split; reflexivity.
Defined.

(** Reading a key after a sequence of assignments. *)
Lemma fold_set_get (pairs : list (value * value)) :
  Forall (fun kv => hashable (fst kv) = true) pairs ->
  forall (acc : dict) (k : value),
    dict_get k
      (fold_left (fun acc kv => dict_set (fst kv) (snd kv) acc) pairs acc)
    = match last_value k pairs with
      | Some v => Some v
      | None => dict_get k acc
      end.
Proof.
  induction 1 as [|[k' v] pairs Hh _ IH]; intros acc k; [reflexivity|].
  cbn [fold_left last_value fst snd] in *. rewrite IH.
  destruct (last_value k pairs); [reflexivity|].
  rewrite (dict_get_set _ _ _ _ Hh).
  destruct (key_eqb k k'); reflexivity.
Qed.

Lemma fold_set_keys (pairs : list (value * value)) :
  forall (acc : dict) (k : value),
    In k (keys (fold_left (fun acc kv => dict_set (fst kv) (snd kv) acc)
                  pairs acc)) ->
    In k (keys acc) \/ In k (map fst pairs).
Proof.
  induction pairs as [|[k' v] pairs IH]; intros acc k; cbn [fold_left map fst snd].
  - auto.
  - intros H. destruct (IH _ _ H) as [H'|H']; [|simpl; auto].
    destruct (keys_dict_set _ _ _ _ H') as [->|]; simpl; auto.
Qed.

(** X8: in the mapping that [get_all_video_descrition] returns on a 200
    answer, a video id holds the description of the last item that carries
    an id equal to it, a key that no item carries holds nothing, and every
    key is the id of an item. *)
Theorem descriptions_last_wins (env : Env) (s : State) (channelId : string)
  (r : response) (body : value) (items : list value)
  (pairs : list (value * value)) :
  requests_get env (List.length (http_log s))
    (descriptions_url channelId (youtube_api_key s)) = Ok r ->
  status_code r = 200 ->
  json r = Ok body ->
  items_of body items ->
  Forall2 description_pair_of items pairs ->
  exists d,
    fst (get_all_video_descrition env channelId s) = Ok d /\
    (forall k, dict_get k d = last_value k pairs) /\
    (forall k, In k (keys d) -> In k (map fst pairs)).
Proof.
  intros Hr H200 Hbody Hitems Hpairs.
  exists (fold_left (fun acc kv => dict_set (fst kv) (snd kv) acc) pairs []).
  split; [|split].
  - unfold get_all_video_descrition.
    rewrite bind_api_key, (bind_requests_get _ _ _ _ _ Hr),
      (status_200 r H200), (bind_lift_ok _ _ _ _ Hbody),
      (bind_items _ _ _ _ Hitems).
    unfold lift. cbn [fst]. apply foldR_description_of_video. exact Hpairs.
  - intros k. rewrite fold_set_get.
    + destruct (last_value k pairs); reflexivity.
    + clear - Hpairs. induction Hpairs as [|item kv items pairs H _ IH];
        constructor; auto. apply H.
  - intros k Hk. destruct (fold_set_keys _ _ _ Hk) as [[]|]; assumption.
Qed.

Lemma descriptions_last_wins_witness :
  exists d,
    fst (get_all_video_descrition (steady jan9 listed_twice VNone []) "c1"
           fresh) = Ok d /\
    (forall k,
       dict_get k d
       = last_value k [(VStr "v1", VStr "old text"); (VStr "v2", VStr "other");
                       (VStr "v1", VStr "new text")]) /\
    (forall k,
       In k (keys d) ->
       In k (map fst [(VStr "v1", VStr "old text"); (VStr "v2", VStr "other");
                      (VStr "v1", VStr "new text")])).
Proof.
  refine (descriptions_last_wins (steady jan9 listed_twice VNone []) fresh
            "c1" listed_twice _
            [search_result "v1" "First" "old text" "2024-01-02T00:00:00Z";
             search_result "v2" "Second" "other" "2024-01-03T00:00:00Z";
             search_result "v1" "First" "new text" "2024-01-02T00:00:00Z"]
            _ eq_refl eq_refl eq_refl _ _).
  - eexists. split; reflexivity.
  - repeat constructor.
Defined.

Example listed_twice_result :
  fst (get_all_video_descrition (steady jan9 listed_twice VNone []) "c1"
         fresh)
  = Ok [(VStr "v1", VStr "new text"); (VStr "v2", VStr "other")].
Proof. reflexivity. Qed.

(** The comprehension of [get_channel_description] over items that all
    carry the key [k]. *)
Lemma foldR_description_entry_one_key (k : value) (items ds : list value) :
  hashable k = true ->
  Forall2 (fun item d =>
             getpath item [VStr "snippet"; VStr "channelId"] = Ok k /\
             getpath item [VStr "snippet"; VStr "description"] = Ok d)
    items ds ->
  forall acc : dict,
    acc = [] \/ (exists x, acc = [(k, x)]) ->
    foldR description_entry items acc
    = Ok (fold_left (fun _ d => [(k, d)]) ds acc).
Proof.
  intros Hh H. induction H as [|item d items ds [Hk Hd] _ IH]; intros acc Hacc.
  - reflexivity.
  - cbn [foldR fold_left]. unfold description_entry at 1.
    rewrite Hk. cbn [rbind]. rewrite Hd. cbn [rbind].
    unfold setitem. rewrite Hh. cbn [rbind].
    assert (Hset : dict_set k d acc = [(k, d)]).
    { destruct Hacc as [->|[x ->]]; simpl; [reflexivity|].
      rewrite (key_eqb_refl k Hh). reflexivity. }
    rewrite Hset. apply IH. eauto.
Qed.

(** X9: when every subscription of the snapshot carries the same
    [snippet.channelId], as the subscriptions of one user do,
    [get_channel_description] returns a mapping with that single key, and
    the description under it is the one of the last subscription. *)
Theorem channel_description_one_subscriber (env : Env) (s : State)
  (items : list value) (k : value) (descriptions : list value)
  (last : value) :
  getitem (subscriptions s) (VStr "items") = Ok (VList items) ->
  hashable k = true ->
  Forall2 (fun item d =>
             getpath item [VStr "snippet"; VStr "channelId"] = Ok k /\
             getpath item [VStr "snippet"; VStr "description"] = Ok d)
    items (descriptions ++ [last]) ->
  fst (get_channel_description env s) = Ok [(k, last)].
Proof.
  intros Hitems Hh Hall.
  pose proof (getitem_items_populated _ _ Hitems) as Hp.
  unfold get_channel_description.
  rewrite (bind_populate_cached env s _ Hp).
  unfold_M. rewrite Hitems. cbn [iter fst].
  rewrite (foldR_description_entry_one_key k _ _ Hh Hall []) by auto.
  rewrite fold_left_app. reflexivity.
Qed.

Lemma channel_description_one_subscriber_witness :
  fst (get_channel_description (steady jan9 one_video VNone [])
         (cached two_channels))
  = Ok [(VStr "me", VStr "about B")].
Proof.
  refine (channel_description_one_subscriber
            (steady jan9 one_video VNone []) (cached two_channels)
            [subscription "A" "about A" "me" "c1";
             subscription "B" "about B" "me" "c2"]
            (VStr "me") [VStr "about A"] (VStr "about B")
            eq_refl eq_refl _).
  repeat constructor.
Defined.









Lemma join_not_a_string (sep : string) (l : list value) :
  Exists (fun t => forall s, t <> VStr s) l -> join sep l = Raise TypeError.
Proof.
  induction l as [|x l IH]; intros H; [inversion H|].
  destruct x as [| | |s| |]; try reflexivity.
  inversion H as [? ? Hx|? ? Hl]; subst.
  - exfalso. eapply Hx. reflexivity.
  - destruct l as [|y l]; [inversion Hl|].
    change (join sep (VStr s :: y :: l))
      with (rbind (join sep (y :: l))
              (fun rest => Ok (s ++ sep ++ rest)%string)).
    rewrite (IH Hl). reflexivity.
Qed.

Lemma mapR_stops {A B} (f : A -> result B) (good : list A) (x : A)
  (rest : list A) (e : exn) :
  Forall (fun a => exists b, f a = Ok b) good ->
  f x = Raise e ->
  mapR f (good ++ x :: rest) = Raise e.
Proof.
  intros Hgood Hx. induction Hgood as [|a good [b Hb] _ IH]; simpl.
  - rewrite Hx. reflexivity.
  - rewrite Hb, IH. reflexivity.
Qed.

(** X12: a caption without a ["text"] member makes [get_video_transcript]
    raise [KeyError], and a caption whose text is not a string makes it raise
    [TypeError], whatever the limit. *)
Theorem transcript_of_bad_captions (env : Env) (s : State) (videoId : string)
  (stop : option Z) (srt : list value) :
  get_transcript env (List.length (transcript_log s)) videoId = Ok srt ->
  (forall good d rest,
     srt = (good ++ VDict d :: rest)%list ->
     Forall (fun e => exists t, getitem e (VStr "text") = Ok t) good ->
     dict_get (VStr "text") d = None ->
     fst (get_video_transcript env videoId stop s) = Raise KeyError) /\
  (forall texts,
     Forall2 (fun e t => getitem e (VStr "text") = Ok t) srt texts ->
     Exists (fun t => forall text, t <> VStr text) texts ->
     fst (get_video_transcript env videoId stop s) = Raise TypeError).
Proof.
  intros Hsrt. unfold get_video_transcript. unfold_M. rewrite Hsrt. split.
  - intros good d rest -> Hgood Hnone.
    rewrite (mapR_stops _ good (VDict d) rest KeyError Hgood);
      [reflexivity|].
    simpl. rewrite Hnone. reflexivity.
  - intros texts Htexts Hbad.
    rewrite (Forall2_mapR _ _ _ Htexts), (join_not_a_string _ _ Hbad).
    reflexivity.
Qed.

Lemma transcript_of_bad_captions_witness :
  fst (get_video_transcript
         (steady jan9 one_video VNone [caption "hello"; silent_caption])
         "v1" None fresh) = Raise KeyError /\
  fst (get_video_transcript
         (steady jan9 one_video VNone [caption "hello"; numeric_caption])
         "v1" (Some 5) fresh) = Raise TypeError.
Proof.
  split.
  - refine (proj1 (transcript_of_bad_captions
                     (steady jan9 one_video VNone
                        [caption "hello"; silent_caption])
                     fresh "v1" None [caption "hello"; silent_caption]
                     eq_refl)
              [caption "hello"]
              [(VStr "start", VInt 0); (VStr "duration", VInt 2)] []
              eq_refl _ eq_refl).
    repeat constructor. eexists. reflexivity.
  - refine (proj2 (transcript_of_bad_captions
                     (steady jan9 one_video VNone
                        [caption "hello"; numeric_caption])
                     fresh "v1" (Some 5) [caption "hello"; numeric_caption]
                     eq_refl)
              [VStr "hello"; VInt 7] _ _).
    + repeat constructor.
    + apply Exists_cons_tl. apply Exists_cons_hd. intros text. discriminate.
Defined.

(** X13: the comments, the descriptions, the likes and the transcript do not
    need the subscriptions: however they end, they neither call the
    subscription service nor touch the cache, and the transcript makes no
    request. *)
Theorem video_methods_leave_subscriptions (env : Env) (s : State)
  (id : string) (stop : option Z) :
  (subscriptions (snd (get_all_video_descrition env id s)) = subscriptions s
   /\ list_log (snd (get_all_video_descrition env id s)) = list_log s) /\
  (subscriptions (snd (get_video_comments env id s)) = subscriptions s
   /\ list_log (snd (get_video_comments env id s)) = list_log s) /\
  (subscriptions (snd (get_video_likes_dislikes env id s)) = subscriptions s
   /\ list_log (snd (get_video_likes_dislikes env id s)) = list_log s) /\
  (subscriptions (snd (get_video_transcript env id stop s)) = subscriptions s
   /\ list_log (snd (get_video_transcript env id stop s)) = list_log s
   /\ http_log (snd (get_video_transcript env id stop s)) = http_log s).
Proof.
  unfold get_all_video_descrition, get_video_comments,
    get_video_likes_dislikes, get_video_transcript.
  unfold_M. repeat split; destruct_matches; reflexivity.
Qed.

Lemma key_eqb_hashable (a b : value) :
  key_eqb a b = true -> hashable a = true.
Proof.
  destruct a; try reflexivity; destruct b; discriminate.
Qed.

Lemma getitem_first_character (a : ascii) (text : string) :
  getitem (VStr (String a text)) (VInt 0) = Ok (VStr (String a EmptyString)).
Proof.
  unfold getitem. cbn [as_int].
  change (chars (String a text))
    with (VStr (String a EmptyString) :: chars text).
  apply index_head.
Qed.

(** The keys of the mapping of recent videos can be keys. *)
Lemma recent_videos_keys_hashable (env : Env) (days : Z) (s s' : State)
  (d : dict) (k : value) :
  get_videos_published_in_last_days env days s = (Ok d, s') ->
  In k (keys d) -> hashable k = true.
Proof.
  unfold get_videos_published_in_last_days, bind.
  destruct (get_channel_ids env s) as [[ids|e] s1]; [|discriminate].
  intros Hrun Hk.
  apply fetch_loop_ok in Hrun as (_ & _ & Hkeys & _ & Hentries).
  destruct (Hkeys k Hk) as [[]|Hin].
  destruct (Hentries k Hin) as (c' & _ & _ & _ & Heq & _).
  eapply key_eqb_hashable; eauto.
Qed.

(** X14: the script reads the first video of the first channel of the
    mapping without looking at what the channel key holds: when the key
    holds a failure text the script raises [TypeError], and when it holds an
    empty list of summaries the script raises [IndexError]; in both cases
    after it has printed the mapping twice. *)
Theorem script_needs_a_video_in_the_first_channel (env : Env) (s s1 s2 : State)
  (metadata : value * value * value) (k : value) (d : dict) :
  get_metadata env s = (Ok metadata, s1) ->
  (forall text,
     get_videos_published_in_last_days env 13 (log_stdout "Video IDs: " s1)
     = (Ok ((k, VStr text) :: d), s2) ->
     text <> "" ->
     script_head env s
     = (Raise TypeError,
        log_stdout
          ("Video Metadata: " ++ repr env (VDict ((k, VStr text) :: d)))
          (log_stdout (repr env (VDict ((k, VStr text) :: d))) s2))) /\
  (get_videos_published_in_last_days env 13 (log_stdout "Video IDs: " s1)
   = (Ok ((k, VList []) :: d), s2) ->
   script_head env s
   = (Raise IndexError,
      log_stdout ("Video Metadata: " ++ repr env (VDict ((k, VList []) :: d)))
        (log_stdout (repr env (VDict ((k, VList []) :: d))) s2))).
Proof.
  intros Hm. split.
  - intros text Hv Htext.
    assert (Hh : hashable k = true).
    { eapply recent_videos_keys_hashable; [exact Hv|]. simpl. auto. }
    unfold script_head, bind at 1. rewrite Hm.
    unfold bind at 1. unfold print at 1. unfold bind at 1. rewrite Hv.
    unfold print_value, print. unfold_M. cbn [str].
    unfold first_video_field. change (keys ((k, VStr text) :: d))
      with (k :: keys d).
    rewrite (index_head k (keys d)). cbn [rbind getpath getitem]. rewrite Hh.
    cbn [dict_get]. rewrite (key_eqb_refl k Hh). cbn [rbind as_int].
    destruct text as [|a text]; [congruence|].
    rewrite getitem_first_character. reflexivity.
  - intros Hv.
    assert (Hh : hashable k = true).
    { eapply recent_videos_keys_hashable; [exact Hv|]. simpl. auto. }
    unfold script_head, bind at 1. rewrite Hm.
    unfold bind at 1. unfold print at 1. unfold bind at 1. rewrite Hv.
    unfold print_value, print. unfold_M. cbn [str].
    unfold first_video_field. change (keys ((k, VList []) :: d))
      with (k :: keys d).
    rewrite (index_head k (keys d)). cbn [rbind getpath getitem]. rewrite Hh.
    cbn [dict_get]. rewrite (key_eqb_refl k Hh). reflexivity.
Qed.

Lemma script_needs_a_video_in_the_first_channel_witness :
  fst (script_head (steady jan9 (error_response 403) one_channel []) fresh)
  = Raise TypeError /\
  fst (script_head (steady jan9 (ok_response (items_body [])) one_channel [])
         fresh)
  = Raise IndexError.
Proof.
  split.
  - pose proof (proj1 (script_needs_a_video_in_the_first_channel
                         (steady jan9 (error_response 403) one_channel [])
                         fresh _ _ _ (VStr "c1") [] eq_refl)
                  "Failed to retrieve videos, status code: 403" eq_refl)
      as H.
    rewrite H; [reflexivity|discriminate].
  - pose proof (proj2 (script_needs_a_video_in_the_first_channel
                         (steady jan9 (ok_response (items_body []))
                            one_channel [])
                         fresh _ _ _ (VStr "c1") [] eq_refl) eq_refl)
      as H.
    rewrite H. reflexivity.
Defined.



End MoreFacts.
